(** * Reddit/X sentiment analyzer: a shallow embedding and its properties

    The development follows the two Python modules of the repository:

    - [reddit_x_sentiment_analyzer.py] (class [SentimentAnalyzer]):
      [detect_platform], the text filter of [scrape_reddit_comments] and
      [scrape_x_replies], and [parse_sentiment_response];
    - [automated_daily_sentiment_reporter.py]
      (class [AutomatedSentimentReporter]): [calculate_sentiment_stats],
      [calculate_overall_stats], [extract_trending_topics],
      [identify_hot_takes], [generate_daily_report], [save_csv] and
      [save_evidence_files].

    The run of the analyzer ([init_csv], [log_to_csv],
    [analyze_sentiment_with_perplexity] and [analyze_url]) is modelled over
    a browser given by parameters.

    Modelling conventions.

    - A Python [str] is a list of code points below 256 ([list ascii]);
      the character classes below are the ones CPython uses on that range.
      File names, which are keys of the file store, are [string]s.
    - A Python number is recorded by its exact value, a rational ([Q]).  A
      decimal numeral read by the parser denotes its decimal value.  The
      percentages of the reporter are binary floats: they are computed
      with primitive floats and recorded by the exact value of the
      float.
    - A raised exception is an explicit result; the file system is an
      explicit finite map that the writers thread through. *)

From Stdlib Require Import ZArith QArith Qabs Qpower Lia Lqa List Ascii String
  Bool.
From Stdlib Require PrimFloat FloatOps SpecFloat FloatAxioms Uint63.
From stdpp Require Import gmap strings fin_maps.
Import ListNotations.

Local Open Scope list_scope.

(** ** Python strings *)

Module Text.

Definition str := list ascii.

(** A string literal of the source, as a list of code points. *)
Definition lit (s : string) : str := list_ascii_of_string s.

Definition code (c : ascii) : N := N_of_ascii c.

Definition between (lo hi : N) (c : ascii) : bool :=
  (lo <=? code c)%N && (code c <=? hi)%N.

(** [str.isspace] and the regular-expression class [\s]. *)
Definition is_space (c : ascii) : bool :=
  between 9 13 c || between 28 32 c || between 133 133 c || between 160 160 c.

Definition is_digit (c : ascii) : bool := between 48 57 c.

Definition is_ascii_alpha (c : ascii) : bool :=
  between 65 90 c || between 97 122 c.

(** The regular-expression class [\w] of a [str] pattern. *)
Definition is_word (c : ascii) : bool :=
  is_digit c || is_ascii_alpha c || between 95 95 c
  || between 170 170 c || between 178 179 c || between 181 181 c
  || between 185 186 c || between 188 190 c || between 192 214 c
  || between 216 246 c || between 248 255 c.

(** [str.lower] on one code point. *)
Definition lower_char (c : ascii) : ascii :=
  if between 65 90 c || between 192 214 c || between 216 222 c
  then ascii_of_N (code c + 32)
  else c.

Definition lower (s : str) : str := List.map lower_char s.

Definition ascii_eqb (a b : ascii) : bool := (code a =? code b)%N.

(** [s.startswith(p)]. *)
Fixpoint starts_with (p s : str) : bool :=
  match p, s with
  | [], _ => true
  | x :: p', y :: s' => ascii_eqb x y && starts_with p' s'
  | _ :: _, [] => false
  end.

(** [needle in hay]. *)
Fixpoint contains (needle hay : str) : bool :=
  starts_with needle hay ||
  match hay with
  | [] => false
  | _ :: hay' => contains needle hay'
  end.

(** [c in s] for one character. *)
Definition has_char (c : ascii) (s : str) : bool := existsb (ascii_eqb c) s.

Fixpoint drop_while (f : ascii -> bool) (s : str) : str :=
  match s with
  | [] => []
  | c :: s' => if f c then drop_while f s' else s
  end.

Fixpoint take_while (f : ascii -> bool) (s : str) : str :=
  match s with
  | [] => []
  | c :: s' => if f c then c :: take_while f s' else []
  end.

Definition lstrip (s : str) : str := drop_while is_space s.
Definition rstrip (s : str) : str := rev (drop_while is_space (rev s)).

(** [s.strip()]. *)
Definition strip (s : str) : str := rstrip (lstrip s).

(** [s[:n]]. *)
Definition slice_to (n : nat) (s : str) : str := firstn n s.

(** The line break. *)
Definition newline : str := [ascii_of_N 10].

(** Lines joined by line breaks. *)
Fixpoint lines (l : list string) : str :=
  match l with
  | [] => []
  | [s] => lit s
  | s :: l' => lit s ++ newline ++ lines l'
  end.

End Text.

Import Text.

(** ** The regular expressions of the response parser

    The three patterns of [parse_sentiment_response] share one shape: a
    literal label matched case-insensitively, [\s*], and one capturing
    group [(cls+)].  The matcher below is a backtracking matcher for that
    fragment: both quantifiers are greedy and give characters back one at
    a time, as the [re] module does. *)

Module Regex.

Inductive atom :=
| Lit (c : ascii)               (* a literal under re.IGNORECASE *)
| Star (cls : ascii -> bool)    (* cls*  *)
| Group (cls : ascii -> bool).  (* (cls+), the capturing group *)

Definition pattern := list atom.

(** Case-insensitive comparison of a pattern literal with a text character. *)
Definition lit_matches (c x : ascii) : bool :=
  ascii_eqb (lower_char c) (lower_char x).

(** Length of the longest prefix of [s] inside [cls]. *)
Definition run (cls : ascii -> bool) (s : str) : nat :=
  length (take_while cls s).

(** A greedy quantifier: try [n] repetitions, then [n - 1], down to [lo]. *)
Fixpoint greedy {A : Type} (try : nat -> option A) (lo n : nat) : option A :=
  if (n <? lo)%nat then None
  else match try n with
       | Some r => Some r
       | None => match n with
                 | O => None
                 | S n' => greedy try lo n'
                 end
       end.

(** [match_here p s]: match [p] at the start of [s]; the result is the text
    of the capturing group (empty when [p] has no group). *)
Fixpoint match_here (p : pattern) (s : str) : option str :=
  match p with
  | [] => Some []
  | Lit c :: p' =>
      match s with
      | x :: s' => if lit_matches c x then match_here p' s' else None
      | [] => None
      end
  | Star cls :: p' =>
      greedy (fun n => match_here p' (skipn n s)) 0 (run cls s)
  | Group cls :: p' =>
      greedy (fun n => match match_here p' (skipn n s) with
                       | Some _ => Some (firstn n s)
                       | None => None
                       end) 1 (run cls s)
  end.

(** [re.search(p, s).group(1)], or [None] when nothing matches: the match
    at the leftmost start position wins. *)
Fixpoint search (p : pattern) (s : str) : option str :=
  match match_here p s with
  | Some g => Some g
  | None => match s with
            | [] => None
            | _ :: s' => search p s'
            end
  end.

Definition label (s : string) : pattern := List.map Lit (lit s).

(** [r'Sentiment:\s*(\w+)'] with [re.IGNORECASE]. *)
Definition sentiment_re : pattern :=
  label "Sentiment:" ++ [Star is_space; Group is_word].

(** The class [[0-9.]]. *)
Definition is_conf_char (c : ascii) : bool := is_digit c || between 46 46 c.

(** [r'Confidence:\s*([0-9.]+)'] with [re.IGNORECASE]. *)
Definition confidence_re : pattern :=
  label "Confidence:" ++ [Star is_space; Group is_conf_char].

(** [r'Reasoning:\s*(.+)'] with [re.IGNORECASE | re.DOTALL]: the dot
    matches every character. *)
Definition reasoning_re : pattern :=
  label "Reasoning:" ++ [Star is_space; Group (fun _ => true)].

End Regex.

(** ** [reddit_x_sentiment_analyzer.py] *)

Module Analyzer.

Import Regex.

(** Exceptions of the analyzer: every one the code meets is a
    [ValueError] with a message. *)
Inductive exn := ValueError (msg : str).

(** *** [float] on the text of the confidence group

    The group consists of digits and dots only.  On such text [float]
    accepts [d+], [d+.], [.d+] and [d+.d+] and raises [ValueError] on
    everything else. *)

Fixpoint digits_value (acc : N) (s : str) : N :=
  match s with
  | [] => acc
  | c :: s' => digits_value (10 * acc + (code c - 48)) s'
  end.

Definition decimal_value (int_part frac : str) : Q :=
  Qred (Z.of_N (digits_value 0 (int_part ++ frac))
        # Z.to_pos (10 ^ Z.of_nat (length frac))).

Definition is_empty (s : str) : bool :=
  match s with [] => true | _ :: _ => false end.

Definition py_float (g : str) : exn + Q :=
  let int_part := take_while is_digit g in
  let bad := inl (ValueError (lit "could not convert string to float: '"
                              ++ g ++ lit "'")) in
  match skipn (length int_part) g with
  | [] => if is_empty int_part then bad else inr (decimal_value int_part [])
  | c :: frac =>
      if between 46 46 c && forallb is_digit frac
         && negb (is_empty int_part && is_empty frac)
      then inr (decimal_value int_part frac)
      else bad
  end.

(** *** [parse_sentiment_response]

    The three local variables, and the [try] block as three statements in
    sequence.  A statement that raises leaves the variables as they are at
    that point; the handler only prints, and the function returns the
    variables. *)

Record fields := {
  sentiment : str;
  confidence : Q;
  reasoning : str
}.

Inductive outcome :=
| Normal (v : fields)
| Raised (e : exn) (v : fields).

Definition and_then (o : outcome) (k : fields -> outcome) : outcome :=
  match o with
  | Normal v => k v
  | Raised e v => Raised e v
  end.

Notation "o >>> k" := (and_then o k) (at level 50, left associativity).

Definition defaults : fields :=
  {| sentiment := lit "neutral";
     confidence := 1 # 2;
     reasoning := lit "Unable to parse response" |}.

Definition extract_sentiment (response : str) (v : fields) : outcome :=
  match search sentiment_re response with
  | Some g => Normal {| sentiment := lower g;
                        confidence := confidence v;
                        reasoning := reasoning v |}
  | None => Normal v
  end.

Definition extract_confidence (response : str) (v : fields) : outcome :=
  match search confidence_re response with
  | Some g =>
      match py_float g with
      | inr q => Normal {| sentiment := sentiment v;
                           confidence := q;
                           reasoning := reasoning v |}
      | inl e => Raised e v
      end
  | None => Normal v
  end.

Definition extract_reasoning (response : str) (v : fields) : outcome :=
  match search reasoning_re response with
  | Some g => Normal {| sentiment := sentiment v;
                        confidence := confidence v;
                        reasoning := slice_to 200 (strip g) |}
  | None => Normal v
  end.

Definition try_block (response : str) : outcome :=
  Normal defaults >>> extract_sentiment response
                  >>> extract_confidence response
                  >>> extract_reasoning response.

Definition parse_sentiment_response (response : str) : str * Q * str :=
  match try_block response with
  | Normal v | Raised _ v => (sentiment v, confidence v, reasoning v)
  end.

(** *** [detect_platform]

    [urlparse(url).netloc] is computed by [urllib.parse.urlsplit]: leading
    control characters and spaces are stripped, tabs and line breaks are
    removed, a scheme is split off, and the network location is what
    follows [//] up to the first of [/], [?] and [#].  The library raises
    [ValueError] on a network location with an unbalanced square bracket.
    What it demands of a bracketed host (an IP literal) depends on the
    library release and is the parameter [check_bracketed_netloc], which
    returns the message of the [ValueError] it raises, if any.  The library
    also rejects a network location outside ASCII whose NFKC form holds
    one of [/?#@:]; no character below 256 has such a form, so that check
    never fires on the strings modelled here. *)

Section UrlParse.

Variable check_bracketed_netloc : str -> option str.

Definition is_c0_or_space (c : ascii) : bool := between 0 32 c.

Definition is_unsafe (c : ascii) : bool :=
  between 9 9 c || between 13 13 c || between 10 10 c.

(** [scheme_chars]: letters, digits, [+], [-] and [.]. *)
Definition is_scheme_char (c : ascii) : bool :=
  is_ascii_alpha c || is_digit c
  || between 43 43 c || between 45 45 c || between 46 46 c.

Definition is_colon (c : ascii) : bool := between 58 58 c.

(** The text after the scheme, or the whole text when there is none. *)
Definition split_scheme (url : str) : str :=
  let head := take_while (fun c => negb (is_colon c)) url in
  match skipn (length head) url, url with
  | _ :: rest, c0 :: _ =>
      if negb (is_empty head) && is_ascii_alpha c0
         && forallb is_scheme_char head
      then rest else url
  | _, _ => url
  end.

Definition is_delim (c : ascii) : bool :=
  between 47 47 c || between 63 63 c || between 35 35 c.

(** [_splitnetloc(url, 2)[0]]. *)
Definition splitnetloc (url : str) : str :=
  take_while (fun c => negb (is_delim c)) (skipn 2 url).

(** The cleaned text that follows the scheme. *)
Definition after_scheme (url : str) : str :=
  let url := drop_while is_c0_or_space url in
  let url := List.filter (fun c => negb (is_unsafe c)) url in
  split_scheme url.

(** [urlparse(url).netloc], or the [ValueError] that [urlparse] raises. *)
Definition urlparse_netloc (url : str) : exn + str :=
  let url := after_scheme url in
  if starts_with (lit "//") url then
    let netloc := splitnetloc url in
    let lb := has_char "["%char netloc in
    let rb := has_char "]"%char netloc in
    if (lb && negb rb) || (rb && negb lb)
    then inl (ValueError (lit "Invalid IPv6 URL"))
    else
      match (if lb && rb then check_bracketed_netloc netloc else None) with
      | Some msg => inl (ValueError msg)
      | None => inr netloc
      end
  else inr [].

Definition detect_platform (url : str) : exn + str :=
  match urlparse_netloc url with
  | inl e => inl e
  | inr netloc =>
      let domain := lower netloc in
      if contains (lit "reddit.com") domain then inr (lit "reddit")
      else if contains (lit "twitter.com") domain
              || contains (lit "x.com") domain
      then inr (lit "x")
      else inl (ValueError (lit "Unsupported platform: " ++ domain))
  end.

End UrlParse.

(** The text between [//] and the next delimiter, whether or not the
    library accepts it as a network location. *)
Definition netloc_text (url : str) : str :=
  let url := after_scheme url in
  if starts_with (lit "//") url then splitnetloc url else [].

(** *** The text filter of [scrape_reddit_comments] and [scrape_x_replies]

    Both loops run over the texts of the captured elements, strip each one
    and append it to the result when it is non-empty and longer than 10. *)

Definition keep_text (text : str) : bool :=
  negb (is_empty text) && (10 <? length text)%nat.

Definition collect_texts (captured : list str) : list str :=
  fold_left (fun acc element_text =>
               let text := strip element_text in
               if keep_text text then acc ++ [text] else acc)
            captured [].

Definition scrape_reddit_comments (captured : list str) : list str :=
  collect_texts captured.

Definition scrape_x_replies (captured : list str) : list str :=
  collect_texts captured.

End Analyzer.

(** ** The analysis run of [reddit_x_sentiment_analyzer.py]

    [init_csv], [log_to_csv], the prompt and the result handling of
    [analyze_sentiment_with_perplexity], and [analyze_url].  The browser is
    outside the program: what it shows, and where it fails, is given by
    parameters.  Errors of the file system are not modelled: opening and
    writing the CSV file succeed. *)

Module Pipeline.

Import Analyzer.

(** [a == b] on strings. *)
Fixpoint str_eqb (a b : str) : bool :=
  match a, b with
  | [], [] => true
  | x :: a', y :: b' => ascii_eqb x y && str_eqb a' b'
  | _, _ => false
  end.

(** A value handed to [csv.writer.writerow]. *)
Inductive log_cell :=
| LStr (s : str)
| LNum (q : Q).

Definition log_header : list log_cell :=
  List.map (fun s => LStr (lit s))
    [ "timestamp"; "platform"; "url"; "comment_text";
      "sentiment"; "confidence"; "ai_reasoning" ]%string.

(** The attribute of the analyzer object that the logging uses. *)
Record analyzer := { csv_filename : string }.

(** The file name chosen by [__init__], given the [strftime] text of the
    current time. *)
Definition new_analyzer (stamp : string) : analyzer :=
  {| csv_filename := ("sentiment_analysis_" ++ stamp ++ ".csv")%string |}.

(** The world the run acts on: the rows of every CSV file, and how many
    times the clock has been read for a log line. *)
Record world := {
  files : gmap string (list (list log_cell));
  ticks : nat
}.

(** The double quote. *)
Definition quote : str := [ascii_of_N 34].

(** The prompt of [analyze_sentiment_with_perplexity]. *)
Definition build_prompt (text : str) : str :=
  lines [ "Analyze the sentiment of this text and provide:";
          "1. Sentiment (positive/negative/neutral)";
          "2. Confidence score (0-1)";
          "3. Brief reasoning";
          "" ]%string
  ++ newline
  ++ lit "Text: " ++ quote ++ slice_to 300 text ++ lit "..." ++ quote
  ++ newline ++ newline
  ++ lines [ "Respond in this exact format:";
             "Sentiment: [sentiment]";
             "Confidence: [score]";
             "Reasoning: [brief explanation]" ]%string.

(** An exception that leaves [analyze_url]. *)
Inductive failure :=
| FromAnalyzer (e : exn)     (* raised by [detect_platform] or [analyze_url] *)
| FromBrowser (msg : str).   (* raised by [self.driver.get(url)] *)

Section Run.

(** [now n]: the ISO text of the clock at its [n]-th reading. *)
Variable now : nat -> str.

(** The release-specific check of the URL parser (see [urlparse_netloc]). *)
Variable check_bracketed_netloc : str -> option str.

(** What the browser does with a URL in a scraper.  Both scrapers call
    [self.driver.get(url)] before their [try]: [inl msg] is an exception of
    that page load, which nothing catches.  [inr captured] are the texts of
    the comment and reply elements, as far as the scraping loop inside the
    [try] gets to read them. *)
Variable reddit_elements : str -> str + list str.
Variable x_elements : str -> str + list str.

(** What the browser does with the [i]-th prompt of a run: an exception
    with its message, or the texts of the response elements found. *)
Variable perplexity : nat -> str -> str + list str.

Variable self : analyzer.

(** [init_csv]: the file is created or truncated and receives the header. *)
Definition init_csv (w : world) : world :=
  {| files := <[csv_filename self := [log_header]]> (files w);
     ticks := ticks w |}.

Definition log_row (timestamp platform url comment_text sentiment : str)
    (confidence : Q) (reasoning : str) : list log_cell :=
  [ LStr timestamp; LStr platform; LStr url; LStr (slice_to 500 comment_text);
    LStr sentiment; LNum confidence; LStr reasoning ].

(** [log_to_csv]: the clock is read and one row is appended; opening for
    appending creates a missing file. *)
Definition log_to_csv (platform url comment_text sentiment : str)
    (confidence : Q) (reasoning : str) (w : world) : world :=
  let timestamp := now (ticks w) in
  let old := default [] (files w !! csv_filename self) in
  {| files := <[csv_filename self :=
                  old ++ [log_row timestamp platform url comment_text
                                  sentiment confidence reasoning]]> (files w);
     ticks := S (ticks w) |}.

(** [analyze_sentiment_with_perplexity] for the [i]-th text of a run. *)
Definition analyze_sentiment_with_perplexity (i : nat) (text : str)
  : str * Q * str :=
  match perplexity i (build_prompt text) with
  | inl msg => (lit "neutral", 1 # 2, lit "Error: " ++ msg)
  | inr [] => (lit "neutral", 1 # 2,
               lit "Unable to get response from Perplexity")
  | inr (e :: response_elements) =>
      parse_sentiment_response (List.last response_elements e)
  end.

(** The loop of [analyze_url] from the [i]-th text on. *)
Fixpoint analyze_texts (i : nat) (platform url : str) (texts : list str)
    (w : world) : world :=
  match texts with
  | [] => w
  | text :: rest =>
      let '(sentiment, confidence, reasoning) :=
        analyze_sentiment_with_perplexity i text in
      analyze_texts (S i) platform url rest
        (log_to_csv platform url text sentiment confidence reasoning w)
  end.

(** A scraper as [analyze_url] calls it: the page load, then the loop. *)
Definition scrape_page (elements : str -> str + list str)
    (collect : list str -> list str) (url : str) : failure + list str :=
  match elements url with
  | inl msg => inl (FromBrowser msg)
  | inr captured => inr (collect captured)
  end.

(** [analyze_url]: the exception it raises, if any, and the world after. *)
Definition analyze_url (url : str) (w : world) : option failure * world :=
  match detect_platform check_bracketed_netloc url with
  | inl e => (Some (FromAnalyzer e), w)
  | inr platform =>
      let scraped :=
        if str_eqb platform (lit "reddit")
        then scrape_page reddit_elements scrape_reddit_comments url
        else if str_eqb platform (lit "x")
        then scrape_page x_elements scrape_x_replies url
        else inl (FromAnalyzer
                    (ValueError (lit "Unsupported platform: " ++ platform))) in
      match scraped with
      | inl f => (Some f, w)
      | inr texts => (None, analyze_texts 0 platform url texts w)
      end
  end.

End Run.

End Pipeline.


(** ** [automated_daily_sentiment_reporter.py] *)

Module Reporter.

Local Open Scope string_scope.

(** One analysed post: a dictionary read with [item.get(key)], so every key
    may be absent.  The values have the types of a sentiment record. *)
Record item := {
  timestamp : option string;
  platform : option string;
  source_url : option string;
  text : option string;
  sentiment : option string;
  intensity : option string;
  confidence : option Q;
  emotional_indicators : option (list string);
  reasoning : option string
}.

(** The dictionary returned by [calculate_sentiment_stats]. *)
Record stats := {
  positive : Q;
  negative : Q;
  neutral : Q;
  count : Z
}.

(** An entry of [trending_topics]. *)
Record topic := {
  topic_name : string;
  topic_mentions : Z;
  topic_sentiment : string
}.

(** An entry of [hot_takes]. *)
Record hot_take := {
  ht_platform : option string;
  ht_text_preview : string;
  ht_sentiment : option string;
  ht_intensity : option string;
  ht_url : option string
}.

Record summary := {
  total_posts_analyzed : Z;
  reddit_posts : Z;
  x_posts : Z
}.

Record breakdown := {
  bd_reddit : stats;
  bd_x : stats;
  bd_overall : stats
}.

(** The dictionary returned by [generate_daily_report]. *)
Record report := {
  report_date : string;
  report_timestamp : string;
  report_summary : summary;
  sentiment_breakdown : breakdown;
  trending_topics : list topic;
  hot_takes : list hot_take;
  evidence_files : list string
}.

(** A value handed to [csv.writer.writerow]. *)
Inductive cell :=
| CStr (s : string)
| CNum (q : Q)
| CJson (l : list string).   (* json.dumps of a list of strings *)

(** What a written file holds: the rows of a CSV file, or the dumped
    report. *)
Inductive file :=
| Csv (rows : list (list cell))
| Json (doc : report).

(** The attributes that [__init__] sets. *)
Record reporter := {
  self_timestamp : string;
  self_report_date : string;
  self_evidence_dir : string
}.

(** [__init__], given the two [strftime] texts of the current time. *)
Definition init (stamp date : string) : reporter :=
  {| self_timestamp := stamp;
     self_report_date := date;
     self_evidence_dir := "evidence_" ++ date |}.

(** [str(directory / name)]. *)
Definition path_join (dir name : string) : string := dir ++ "/" ++ name.

(** [s[:n]]. *)
Definition prefix (n : nat) (s : string) : string := substring 0 n s.

Definition len {A : Type} (l : list A) : Z := Z.of_nat (length l).

Definition Qlt_bool (a b : Q) : bool :=
  (Qnum a * QDen b <? Qnum b * QDen a)%Z.

Definition is_str (v : option string) (s : string) : bool :=
  match v with
  | Some x => String.eqb x s
  | None => false
  end.

(** [item.get(key, default)]. *)
Definition get {A : Type} (v : option A) (default : A) : A :=
  match v with
  | Some x => x
  | None => default
  end.

(** *** Binary floats

    [round(x, 1)] returns a float: the one nearest to the tenth it has
    chosen.  Dividing the whole number of tenths by 10 in IEEE arithmetic
    gives that float, and the division is the one of the primitive
    floats. *)

Definition pow2 (e : Z) : Q :=
  match e with
  | Z0 => 1
  | Zpos p => Z.pow_pos 2 p # 1
  | Zneg p => 1 # Pos.pow 2 p
  end.

(** The exact value of a finite float. *)
Definition float_value (f : PrimFloat.float) : Q :=
  match FloatOps.Prim2SF f with
  | SpecFloat.S754_finite s m e =>
      Qred ((if s then - (Zpos m # 1) else Zpos m # 1) * pow2 e)
  | _ => 0
  end.

Definition float_of_Z (k : Z) : PrimFloat.float :=
  PrimFloat.of_uint63 (Uint63.of_Z k).

(** The value of the float nearest to [k] tenths. *)
Definition tenths_as_float (k : Z) : Q :=
  float_value (PrimFloat.div (float_of_Z k) (float_of_Z 10)).

(** The integer nearest to [q], the even one when [q] is half-way. *)
Definition round_half_even (q : Q) : Z :=
  let n := Qnum q in
  let d := Zpos (Qden q) in
  let f := (n / d)%Z in
  let r := (n mod d)%Z in
  if (2 * r <? d)%Z then f
  else if (d <? 2 * r)%Z then (f + 1)%Z
  else if Z.even f then f else (f + 1)%Z.

(** [round(count / total * 100, 1)] step by step: the quotient and the
    product are floats, and [round] takes the tenth nearest to the exact
    value of the product, the even one when that value is half-way.
    [float_tenths] is that tenth as a whole number of tenths. *)
Definition float_tenths (count total : Z) : Z :=
  round_half_even
    (float_value
       (PrimFloat.mul (PrimFloat.div (float_of_Z count) (float_of_Z total))
                      (float_of_Z 100))
     * 10).

Definition float_percentage (count total : Z) : Q :=
  tenths_as_float (float_tenths count total).

(** Whether the float computation rounds the percentage of [count] out of
    [total] up. *)
Definition float_tie_up (count total : Z) : bool :=
  (1000 * count / total <? float_tenths count total)%Z.

Section Methods.

(** [round(x, 1)] takes the tenth nearest to [x].  When [x] lies exactly
    half-way between two tenths the direction depends on the binary value
    of the float; [tie_up count total] tells whether the percentage of
    [count] out of [total] is then rounded up.  With [float_tie_up] this is
    the float computation [float_tenths] for every total up to 10^11
    ([FloatFacts.float_tenths_nearest]). *)
Variable tie_up : Z -> Z -> bool.

Variable self : reporter.

(** The tenth that [round(count / total * 100, 1)] takes, as a whole
    number of tenths of a percent. *)
Definition round_tenths (count total : Z) : Z :=
  let q := (1000 * count / total)%Z in
  let r := ((1000 * count) mod total)%Z in
  if (2 * r <? total)%Z then q
  else if (total <? 2 * r)%Z then (q + 1)%Z
  else if tie_up count total then (q + 1)%Z else q.

(** [round(count / total * 100, 1)]. *)
Definition percentage (count total : Z) : Q :=
  tenths_as_float (round_tenths count total).

(** [sum(1 for item in data if item.get('sentiment') == label)]. *)
Definition count_sentiment (label : string) (data : list item) : Z :=
  fold_left (fun n it => if is_str (sentiment it) label then (n + 1)%Z else n)
            data 0%Z.

Definition calculate_sentiment_stats (data : list item) : stats :=
  match data with
  | [] => {| positive := 0%Q; negative := 0%Q; neutral := 0%Q; count := 0%Z |}
  | _ :: _ =>
      let total := len data in
      let pos := count_sentiment "positive" data in
      let neg := count_sentiment "negative" data in
      let neu := (total - pos - neg)%Z in
      {| positive := percentage pos total;
         negative := percentage neg total;
         neutral := percentage neu total;
         count := total |}
  end.

Definition calculate_overall_stats (reddit_data x_data : list item) : stats :=
  let all_data := (reddit_data ++ x_data)%list in
  calculate_sentiment_stats all_data.

Definition extract_trending_topics (reddit_data x_data : list item)
  : list topic :=
  [ {| topic_name := "AI Technology"; topic_mentions := 156;
       topic_sentiment := "positive" |};
    {| topic_name := "Economic Policy"; topic_mentions := 89;
       topic_sentiment := "negative" |};
    {| topic_name := "Climate Change"; topic_mentions := 67;
       topic_sentiment := "neutral" |} ].

(** The condition of the loop of [identify_hot_takes]. *)
Definition is_hot (it : item) : bool :=
  Qlt_bool (8 # 10) (get (confidence it) 0%Q) && is_str (intensity it) "high".

Definition to_hot_take (it : item) : hot_take :=
  {| ht_platform := platform it;
     ht_text_preview := prefix 100 (get (text it) "") ++ "...";
     ht_sentiment := sentiment it;
     ht_intensity := intensity it;
     ht_url := source_url it |}.

Definition identify_hot_takes (reddit_data x_data : list item)
  : list hot_take :=
  let all_data := (reddit_data ++ x_data)%list in
  let hot_takes :=
    fold_left (fun acc it =>
                 if is_hot it then (acc ++ [to_hot_take it])%list else acc)
              all_data [] in
  firstn 5 hot_takes.

Definition evidence_names : list string :=
  [ "reddit_analysis_" ++ self_timestamp self ++ ".csv";
    "x_analysis_" ++ self_timestamp self ++ ".csv";
    "daily_report_" ++ self_timestamp self ++ ".json" ].

Definition generate_daily_report (reddit_data x_data : list item) : report :=
  {| report_date := self_report_date self;
     report_timestamp := self_timestamp self;
     report_summary :=
       {| total_posts_analyzed := (len reddit_data + len x_data)%Z;
          reddit_posts := len reddit_data;
          x_posts := len x_data |};
     sentiment_breakdown :=
       {| bd_reddit := calculate_sentiment_stats reddit_data;
          bd_x := calculate_sentiment_stats x_data;
          bd_overall := calculate_overall_stats reddit_data x_data |};
     trending_topics := extract_trending_topics reddit_data x_data;
     hot_takes := identify_hot_takes reddit_data x_data;
     evidence_files := evidence_names |}.

Definition csv_header : list cell :=
  List.map CStr
    [ "timestamp"; "platform"; "source_url"; "text_preview"; "sentiment";
      "intensity"; "confidence"; "emotional_indicators"; "reasoning" ].

Definition csv_row (it : item) : list cell :=
  [ CStr (get (timestamp it) "");
    CStr (get (platform it) "");
    CStr (get (source_url it) "");
    CStr (prefix 200 (get (text it) ""));
    CStr (get (sentiment it) "");
    CStr (get (intensity it) "");
    match confidence it with Some q => CNum q | None => CStr "" end;
    CJson (get (emotional_indicators it) []);
    CStr (get (reasoning it) "") ].

(** [save_csv]: nothing happens for an empty collection; otherwise the file
    is opened for writing (created or truncated) and receives the header
    row and one row per item. *)
Definition save_csv (data : list item) (filename : string)
    (fs : gmap string file) : gmap string file :=
  match data with
  | [] => fs
  | _ :: _ =>
      let rows := fold_left (fun written it => (written ++ [csv_row it])%list)
                            data [csv_header] in
      <[filename := Csv rows]> fs
  end.

Definition reddit_file : string :=
  path_join (self_evidence_dir self)
            ("reddit_analysis_" ++ self_timestamp self ++ ".csv").

Definition x_file : string :=
  path_join (self_evidence_dir self)
            ("x_analysis_" ++ self_timestamp self ++ ".csv").

Definition report_file : string :=
  path_join (self_evidence_dir self)
            ("daily_report_" ++ self_timestamp self ++ ".json").

(** [save_evidence_files]: the new file store and the returned paths. *)
Definition save_evidence_files (reddit_data x_data : list item)
    (report_data : report) (fs : gmap string file)
  : gmap string file * list string :=
  let fs := save_csv reddit_data reddit_file fs in
  let fs := save_csv x_data x_file fs in
  let fs := <[report_file := Json report_data]> fs in
  (fs, [reddit_file; x_file; report_file]).

End Methods.

(** Rounding half to even, the tie rule of [round] on an exactly
    representable argument. *)
Definition half_even (count total : Z) : bool :=
  Z.odd (1000 * count / total).

End Reporter.

(** * Properties *)

(** ** Facts about strings and the matcher *)

Module TextFacts.

Import Regex.

Lemma ascii_eqb_eq (a b : ascii) : ascii_eqb a b = true <-> a = b.
Proof.
  unfold ascii_eqb, code. rewrite N.eqb_eq. split.
  - intros H. rewrite <- (ascii_N_embedding a), <- (ascii_N_embedding b).
    now rewrite H.
  - now intros ->.
Qed.

Lemma starts_with_app (p s : str) :
  starts_with p s = true <-> exists rest, s = p ++ rest.
Proof.
  revert s. induction p as [|x p IH]; intros s; simpl.
  - split; [intros _; now exists s | reflexivity].
  - destruct s as [|y s]; simpl.
    + split; [discriminate | intros [rest H]; discriminate].
    + rewrite andb_true_iff, ascii_eqb_eq, IH. split.
      * intros [-> [rest ->]]. now exists rest.
      * intros [rest H]. injection H as -> ->. split; [reflexivity | now exists rest].
Qed.

(** [needle] occurs in [hay]. *)
Definition Substring (needle hay : str) : Prop :=
  exists before after, hay = before ++ needle ++ after.

Lemma contains_Substring (needle hay : str) :
  contains needle hay = true <-> Substring needle hay.
Proof.
  unfold Substring. induction hay as [|c hay IH].
  - simpl. rewrite orb_false_r, starts_with_app. split.
    + intros [rest H]. now exists [], rest.
    + intros [[|b before] [after H]]; [now exists after | discriminate].
  - cbn [contains]. rewrite orb_true_iff, starts_with_app, IH. split.
    + intros [[rest H] | [before [after H]]].
      * now exists [], rest.
      * exists (c :: before), after. now rewrite H.
    + intros [[|b before] [after H]].
      * left. now exists after.
      * right. injection H as _ H. now exists before, after.
Qed.

Lemma greedy_some {A : Type} (try : nat -> option A) (lo n : nat) (r : A) :
  greedy try lo n = Some r ->
  exists k, (lo <= k <= n)%nat /\ try k = Some r.
Proof.
  induction n as [|n IH]; cbn [greedy].
  - destruct (Nat.ltb_spec 0 lo); [discriminate |].
    destruct (try 0%nat) eqn:E; [|discriminate].
    intros [= ->]. exists 0%nat. split; [lia | assumption].
  - destruct (Nat.ltb_spec (S n) lo); [discriminate |].
    destruct (try (S n)) eqn:E.
    + intros [= ->]. exists (S n). split; [lia | assumption].
    + intros H'. destruct (IH H') as [k [Hk Ht]]. exists k. split; [lia | assumption].
Qed.

Lemma firstn_run_forallb (cls : ascii -> bool) (s : str) (k : nat) :
  (k <= run cls s)%nat -> forallb cls (firstn k s) = true.
Proof.
  unfold run. revert k. induction s as [|c s IH]; intros k Hk.
  - now destruct k.
  - destruct k as [|k]; [reflexivity |].
    simpl in Hk |- *. destruct (cls c) eqn:E; simpl in Hk; [|lia].
    rewrite IH by lia. reflexivity.
Qed.

Lemma firstn_run_nonempty (cls : ascii -> bool) (s : str) (k : nat) :
  (1 <= k <= run cls s)%nat -> firstn k s <> [].
Proof.
  unfold run. intros [H1 H2]. destruct s as [|c s]; simpl in H2; [lia |].
  destruct k; [lia | discriminate].
Qed.

(** No atom before the group captures anything. *)
Definition plain (a : atom) : Prop :=
  match a with
  | Group _ => False
  | _ => True
  end.

(** The text captured by a pattern that ends in its group is a non-empty
    string of characters of the group's class. *)
Lemma match_here_group (pre : pattern) (cls : ascii -> bool) (s g : str) :
  Forall plain pre ->
  match_here (pre ++ [Group cls]) s = Some g ->
  g <> [] /\ forallb cls g = true.
Proof.
  intros Hpre. revert s. induction Hpre as [|a pre Ha _ IH]; intros s.
  - cbn [app match_here]. intros H.
    apply greedy_some in H as [k [Hk Ht]].
    cbn beta iota delta [match_here] in Ht. injection Ht as <-. split.
    + now apply firstn_run_nonempty with (cls := cls).
    + apply firstn_run_forallb. lia.
  - destruct a as [c | sp | gr]; [| | contradiction]; cbn [app match_here].
    + destruct s as [|x s]; [discriminate |].
      destruct (lit_matches c x); [apply IH | discriminate].
    + intros H. apply greedy_some in H as [k [_ Ht]]. cbn beta in Ht.
      now apply IH in Ht.
Qed.

Lemma search_some (p : pattern) (s g : str) :
  search p s = Some g -> exists s', match_here p s' = Some g.
Proof.
  induction s as [|c s IH]; cbn [search].
  - destruct (match_here p []) eqn:E; [|discriminate].
    intros [= ->]. now exists [].
  - destruct (match_here p (c :: s)) eqn:E.
    + intros [= ->]. now exists (c :: s).
    + exact IH.
Qed.

Lemma plain_label (s : string) : Forall plain (label s ++ [Star is_space]).
Proof.
  apply Forall_app. split.
  - unfold label. apply List.Forall_forall. intros a Ha.
    apply in_map_iff in Ha as [c [<- _]]. exact I.
  - repeat constructor.
Qed.

Lemma search_labelled_group (s : string) (cls : ascii -> bool) (t g : str) :
  search (label s ++ [Star is_space; Group cls]) t = Some g ->
  g <> [] /\ forallb cls g = true.
Proof.
  intros H. apply search_some in H as [t' H].
  apply (match_here_group (label s ++ [Star is_space]) cls t' g).
  - apply plain_label.
  - now rewrite <- app_assoc.
Qed.

End TextFacts.

(** ** The response parser *)

Module ParserFacts.

Import Regex Analyzer TextFacts.

Definition parsed_sentiment (response : str) : str :=
  fst (fst (parse_sentiment_response response)).

Definition parsed_confidence (response : str) : Q :=
  snd (fst (parse_sentiment_response response)).

Definition parsed_reasoning (response : str) : str :=
  snd (parse_sentiment_response response).

Lemma decimal_value_nonneg (int_part frac : str) :
  (0 <= decimal_value int_part frac)%Q.
Proof.
  unfold decimal_value. rewrite Qred_correct.
  unfold Qle. simpl. lia.
Qed.

Lemma py_float_nonneg (g : str) (q : Q) : py_float g = inr q -> (0 <= q)%Q.
Proof.
  unfold py_float.
  destruct (skipn _ g) as [|c frac].
  - destruct (is_empty _); [discriminate |].
    intros [= <-]. apply decimal_value_nonneg.
  - destruct (_ && _); [|discriminate].
    intros [= <-]. apply decimal_value_nonneg.
Qed.

(** The confidence is the default, or what [float] makes of the captured
    text. *)
Lemma parsed_confidence_cases (response : str) :
  parsed_confidence response = 1 # 2 \/
  exists g, search confidence_re response = Some g /\
            py_float g = inr (parsed_confidence response).
Proof.
  unfold parsed_confidence, parse_sentiment_response, try_block.
  unfold and_then, extract_sentiment, extract_confidence, extract_reasoning.
  destruct (search sentiment_re response);
    destruct (search confidence_re response) as [g|]; cbn [confidence defaults];
    try destruct (py_float g) as [e|q] eqn:E;
    destruct (search reasoning_re response); cbn;
    first [ now left | right; exists g; now split ].
Qed.

(** When no confidence is captured, the other two fields are extracted
    each on its own, and the confidence is the default. *)
Lemma parse_without_confidence (response : str) :
  search confidence_re response = None ->
  parse_sentiment_response response =
    (match search sentiment_re response with
     | Some g => lower g
     | None => lit "neutral"
     end,
     1 # 2,
     match search reasoning_re response with
     | Some g => slice_to 200 (strip g)
     | None => lit "Unable to parse response"
     end).
Proof.
  intros H. unfold parse_sentiment_response, try_block.
  unfold and_then, extract_sentiment, extract_confidence, extract_reasoning.
  rewrite H.
  destruct (search sentiment_re response);
    destruct (search reasoning_re response); reflexivity.
Qed.


(** A reply without its [Confidence:] line. *)
Example parse_missing_confidence_line :
  parse_sentiment_response
    (lines ["Sentiment: Positive"; "Reasoning: The author is pleased."]) =
  (lit "positive", 1 # 2, lit "The author is pleased.").
Proof. vm_compute. reflexivity. Qed.

Example parse_confidence_above_one :
  parse_sentiment_response
    (lines ["Sentiment: positive"; "Confidence: 1.4"; "Reasoning: sure"]) =
  (lit "positive", 7 # 5, lit "sure").
Proof. vm_compute. reflexivity. Qed.

(** A minus sign is not in the class of the group, so the label does not
    match and the default stays. *)
Example parse_negative_confidence :
  parse_sentiment_response
    (lines ["Sentiment: negative"; "Confidence: -0.2"; "Reasoning: sad"]) =
  (lit "negative", 1 # 2, lit "sad").
Proof. vm_compute. reflexivity. Qed.



(** C9, as amended.  For every response the sentiment returned by
    [parse_sentiment_response] is either the default "neutral" or the
    lower-cased word captured after a [Sentiment:] label, a non-empty
    string of word characters; it need not be one of the three labels. *)
Theorem sentiment_default_or_captured_word (response : str) :
  parsed_sentiment response = lit "neutral" \/
  exists g, search sentiment_re response = Some g /\
            g <> [] /\ forallb is_word g = true /\
            parsed_sentiment response = lower g.
Proof.
  unfold parsed_sentiment, parse_sentiment_response, try_block.
  unfold and_then, extract_sentiment, extract_confidence, extract_reasoning.
  destruct (search sentiment_re response) as [g|] eqn:Hs.
  - right. exists g.
    destruct (search_labelled_group "Sentiment:" is_word response g Hs)
      as [Hne Hw].
    repeat split; try assumption.
    destruct (search confidence_re response) as [c|]; cbn [sentiment];
      try destruct (py_float c);
      destruct (search reasoning_re response); reflexivity.
  - left.
    destruct (search confidence_re response) as [c|]; cbn [sentiment];
      try destruct (py_float c);
      destruct (search reasoning_re response); reflexivity.
Qed.

(** C9, as stated, fails: the word after the label is returned whatever it
    is. *)
Lemma sentiment_outside_labels :
  ~ (parsed_sentiment (lit "Sentiment: mixed") = lit "positive" \/
     parsed_sentiment (lit "Sentiment: mixed") = lit "negative" \/
     parsed_sentiment (lit "Sentiment: mixed") = lit "neutral").
Proof. vm_compute. intros [H | [H | H]]; discriminate H. Qed.

(** C5, at the failing input.  The confidence text "1.2.3" makes [float]
    raise; the handler keeps the sentiment already extracted and the
    default confidence, and the reasoning, although its pattern matches the
    response, stays at its default. *)
Theorem malformed_confidence_drops_reasoning :
  search reasoning_re
    (lines ["Sentiment: positive"; "Confidence: 1.2.3"; "Reasoning: good"]) =
    Some (lit "good") /\
  parse_sentiment_response
    (lines ["Sentiment: positive"; "Confidence: 1.2.3"; "Reasoning: good"]) =
    (lit "positive", 1 # 2, lit "Unable to parse response").
Proof. split; vm_compute; reflexivity. Qed.

End ParserFacts.

(** ** Platform detection and the text filter *)

Module AnalyzerFacts.

Import Analyzer TextFacts.

(** The three examples of the specification, for every library release. *)
Example detect_reddit (chk : str -> option str) :
  detect_platform chk (lit "https://www.reddit.com/r/all/top") =
  inr (lit "reddit").
Proof. vm_compute. reflexivity. Qed.

Example detect_x (chk : str -> option str) :
  detect_platform chk (lit "https://x.com/explore") = inr (lit "x").
Proof. vm_compute. reflexivity. Qed.

Example detect_example_com (chk : str -> option str) :
  detect_platform chk (lit "https://example.com") =
  inl (ValueError (lit "Unsupported platform: example.com")).
Proof. vm_compute. reflexivity. Qed.

(** The network location of an accepted URL is the text after [//]. *)
Lemma urlparse_netloc_text (chk : str -> option str) (url netloc : str) :
  urlparse_netloc chk url = inr netloc -> netloc = netloc_text url.
Proof.
  unfold urlparse_netloc, netloc_text.
  destruct (starts_with _ _).
  - destruct (orb _ _); [discriminate |].
    destruct (andb _ _); [destruct (chk _); [discriminate |] |];
      intros H; now injection H.
  - intros H. now injection H.
Qed.




(** The loop of the scrapers is a filter over the stripped texts. *)
Lemma collect_texts_filter (captured : list str) :
  collect_texts captured =
  List.filter (fun text => (10 <? length text)%nat) (List.map strip captured).
Proof.
  unfold collect_texts.
  enough (H : forall acc,
             fold_left (fun acc element_text =>
                          let text := strip element_text in
                          if keep_text text then acc ++ [text] else acc)
                       captured acc =
             acc ++ List.filter (fun text => (10 <? length text)%nat)
                                (List.map strip captured))
    by apply (H []).
  induction captured as [|c captured IH]; intros acc; cbn [fold_left].
  - cbn. now rewrite app_nil_r.
  - rewrite IH. cbn [List.map List.filter]. unfold keep_text.
    destruct (strip c) as [|x text] eqn:E; cbn [is_empty negb andb length].
    + reflexivity.
    + destruct (10 <? S (length text))%nat; [|reflexivity].
      now rewrite <- app_assoc.
Qed.

(** C7, as amended.  Both scrapers return, in capture order, the stripped
    texts that are longer than 10 characters: a captured string is
    discarded exactly when its stripped length is at most 10. *)
Theorem scrapers_keep_longer_than_10 (captured : list str) :
  scrape_reddit_comments captured =
    List.filter (fun text => (10 <? length text)%nat)
                (List.map strip captured) /\
  scrape_x_replies captured =
    List.filter (fun text => (10 <? length text)%nat)
                (List.map strip captured) /\
  (forall text, In text (scrape_reddit_comments captured) <->
                In text (List.map strip captured) /\ (10 < length text)%nat).
Proof.
  unfold scrape_reddit_comments, scrape_x_replies.
  rewrite collect_texts_filter.
  split; [reflexivity | split; [reflexivity |]].
  intros text. rewrite filter_In, Nat.ltb_lt. reflexivity.
Qed.

(** C7, as stated, fails: a text of exactly 10 characters is discarded. *)
Lemma scraper_discards_length_10 :
  length (strip (lit "0123456789")) = 10%nat /\
  scrape_reddit_comments [lit "0123456789"] = [] /\
  scrape_x_replies [lit "0123456789"] = [].
Proof. repeat split; vm_compute; reflexivity. Qed.

End AnalyzerFacts.

(** ** Binary floats

    The operations of the primitive floats are specified by the functions
    of [SpecFloat].  This part derives from them what the reporter needs:
    the float quotient of two whole numbers below 2^53 and its product
    with 100 are each one of the two floats around the exact result, so
    [round(count / total * 100, 1)] takes the tenth nearest to the exact
    share whenever the share is not half-way between two tenths. *)

Module FloatFacts.

Import SpecFloat.

Local Abbreviation pow2 := Reporter.pow2.
Local Abbreviation float_value := Reporter.float_value.
Local Abbreviation float_of_Z := Reporter.float_of_Z.
Local Abbreviation round_half_even := Reporter.round_half_even.
Local Abbreviation float_tenths := Reporter.float_tenths.
Local Abbreviation round_tenths := Reporter.round_tenths.
Local Abbreviation float_tie_up := Reporter.float_tie_up.

Local Open Scope Z_scope.

(** *** Mantissas and shifts *)

Lemma digits2_pos_bounds (p : positive) :
  2 ^ (Zpos (digits2_pos p) - 1) <= Zpos p < 2 ^ Zpos (digits2_pos p).
Proof.
  induction p as [p IH | p IH |]; cbn [digits2_pos].
  - rewrite Pos2Z.inj_succ.
    replace (Z.succ (Zpos (digits2_pos p)) - 1) with (Z.succ (Zpos (digits2_pos p) - 1)) by lia.
    rewrite !Z.pow_succ_r by lia. lia.
  - rewrite Pos2Z.inj_succ.
    replace (Z.succ (Zpos (digits2_pos p)) - 1) with (Z.succ (Zpos (digits2_pos p) - 1)) by lia.
    rewrite !Z.pow_succ_r by lia. lia.
  - cbn. lia.
Qed.

Lemma digits2_pos_unique (p : positive) (d : Z) :
  2 ^ (d - 1) <= Zpos p < 2 ^ d -> Zpos (digits2_pos p) = d.
Proof.
  intros [H1 H2]. pose proof (digits2_pos_bounds p) as [B1 B2].
  set (k := Zpos (digits2_pos p)) in *.
  assert (Hk : 0 < k) by (unfold k; lia).
  assert (Hd : 0 < d).
  { destruct (Z.lt_ge_cases 0 d) as [|Hle]; [assumption|].
    destruct (Z.eq_dec d 0) as [->|]; [cbn in H2; lia|].
    rewrite (Z.pow_neg_r 2 d) in H2 by lia. lia. }
  destruct (Z.lt_trichotomy k d) as [Hlt | [-> | Hgt]]; [| reflexivity |].
  - assert (2 ^ k <= 2 ^ (d - 1)) by (apply Z.pow_le_mono_r; lia). lia.
  - assert (2 ^ d <= 2 ^ (k - 1)) by (apply Z.pow_le_mono_r; lia). lia.
Qed.

Lemma shr_1_m (r : shr_record) :
  0 <= shr_m r -> shr_m (shr_1 r) = shr_m r / 2.
Proof.
  destruct r as [m r s]. cbn [shr_m]. intros Hm.
  destruct m as [|p|p]; [reflexivity | | lia].
  destruct p as [p|p|]; cbn [shr_1 shr_m].
  - rewrite (Pos2Z.inj_xI p). apply Z.div_unique with (r := 1); lia.
  - rewrite (Pos2Z.inj_xO p). apply Z.div_unique with (r := 0); lia.
  - reflexivity.
Qed.

Lemma pow2_pos (n : Z) : 0 <= n -> 0 < 2 ^ n.
Proof. intros. apply Z.pow_pos_nonneg; lia. Qed.

Lemma iter_shr_1_m (p : positive) (r : shr_record) :
  0 <= shr_m r -> shr_m (iter_pos shr_1 p r) = shr_m r / 2 ^ Zpos p.
Proof.
  revert r. induction p as [p IH | p IH |]; intros r Hr; cbn [iter_pos].
  - pose proof (pow2_pos (Zpos p) ltac:(lia)) as Hp.
    assert (H1 : 0 <= shr_m (shr_1 r)).
    { rewrite shr_1_m by assumption. apply Z.div_pos; lia. }
    assert (H2 : 0 <= shr_m (iter_pos shr_1 p (shr_1 r))).
    { rewrite IH by assumption. apply Z.div_pos; [assumption | lia]. }
    rewrite IH, IH, shr_1_m by assumption.
    rewrite !Z.div_div by lia.
    f_equal. rewrite (Pos2Z.inj_xI p).
    replace (2 * Zpos p + 1) with (1 + Zpos p + Zpos p) by lia.
    rewrite !Z.pow_add_r by lia. change (2 ^ 1) with 2. ring.
  - pose proof (pow2_pos (Zpos p) ltac:(lia)) as Hp.
    assert (H2 : 0 <= shr_m (iter_pos shr_1 p r)).
    { rewrite IH by assumption. apply Z.div_pos; [assumption | lia]. }
    rewrite IH, IH by assumption.
    rewrite !Z.div_div by lia.
    f_equal. rewrite (Pos2Z.inj_xO p).
    replace (2 * Zpos p) with (Zpos p + Zpos p) by lia.
    rewrite !Z.pow_add_r by lia. ring.
  - rewrite shr_1_m by assumption. reflexivity.
Qed.

Lemma shr_record_of_loc_m (m : Z) (l : location) :
  shr_m (shr_record_of_loc m l) = m.
Proof. destruct l as [|[| |]]; reflexivity. Qed.

Lemma shr_spec (r : shr_record) (e n : Z) :
  0 <= shr_m r -> 0 <= n ->
  shr_m (fst (shr r e n)) = shr_m r / 2 ^ n /\ snd (shr r e n) = e + n.
Proof.
  intros Hr Hn. destruct n as [|p|p]; cbn [shr fst snd].
  - rewrite Z.div_1_r. lia.
  - split; [now apply iter_shr_1_m | reflexivity].
  - lia.
Qed.

Lemma round_nearest_even_cases (m : Z) (l : location) :
  round_nearest_even m l = m \/ round_nearest_even m l = m + 1.
Proof.
  destruct l as [|[| |]]; cbn [round_nearest_even]; auto.
  destruct (Z.even m); auto.
Qed.

(** Rounding a mantissa of at least 53 digits, out of reach of the
    subnormal numbers and of overflow: the result has 53 digits and is one
    of the two floats around the rounded number. *)
Lemma binary_round_aux_spec (sx : bool) (mx : positive) (ex : Z)
    (lx : location) :
  53 <= Zpos (digits2_pos mx) ->
  -1074 <= Zpos (digits2_pos mx) + ex - 53 ->
  Zpos (digits2_pos mx) + ex <= 1023 ->
  exists m e,
    binary_round_aux 53 1024 sx (Zpos mx) ex lx = S754_finite sx m e /\
    ex <= e /\
    2 ^ 52 <= Zpos m < 2 ^ 53 /\
    e <= ex + (Zpos (digits2_pos mx) - 53) + 1 /\
    (Zpos m - 1) * 2 ^ (e - ex) <= Zpos mx /\
    Zpos mx + 1 <= (Zpos m + 1) * 2 ^ (e - ex).
Proof.
  set (d := Zpos (digits2_pos mx)). intros Hd Hlo Hhi.
  pose proof (digits2_pos_bounds mx) as Hmx. fold d in Hmx.
  set (n := d - 53).
  assert (Hn : 0 <= n) by (unfold n; lia).
  unfold binary_round_aux, shr_fexp.
  replace (fexp 53 1024 (Zdigits2 (Zpos mx) + ex) - ex) with n
    by (unfold fexp, emin; cbn [Zdigits2]; fold d; unfold n; lia).
  destruct (shr_spec (shr_record_of_loc (Zpos mx) lx) ex n) as [Hm1 He1];
    [rewrite shr_record_of_loc_m; lia | exact Hn |].
  destruct (shr (shr_record_of_loc (Zpos mx) lx) ex n) as [mrs' e'].
  cbn [fst snd] in Hm1, He1. rewrite shr_record_of_loc_m in Hm1. subst e'.
  pose proof (pow2_pos n Hn) as H2n.
  assert (Hpow : 2 ^ d = 2 ^ n * 2 ^ 53).
  { replace d with (n + 53) by (unfold n; lia). apply Z.pow_add_r; lia. }
  assert (Hpow' : 2 ^ (d - 1) = 2 ^ n * 2 ^ 52).
  { replace (d - 1) with (n + 52) by (unfold n; lia). apply Z.pow_add_r; lia. }
  rewrite Hpow, Hpow' in Hmx.
  assert (Hdiv : shr_m mrs' * 2 ^ n <= Zpos mx < (shr_m mrs' + 1) * 2 ^ n).
  { rewrite Hm1.
    pose proof (Z.mul_div_le (Zpos mx) (2 ^ n) H2n).
    pose proof (Z.mul_succ_div_gt (Zpos mx) (2 ^ n) H2n). lia. }
  assert (Hm1b : 2 ^ 52 <= shr_m mrs' < 2 ^ 53).
  { rewrite Hm1. split.
    - apply Z.div_le_lower_bound; lia.
    - apply Z.div_lt_upper_bound; lia. }
  clear Hm1.
  pose proof (round_nearest_even_cases (shr_m mrs') (loc_of_shr_record mrs'))
    as Hr.
  set (m1 := shr_m mrs') in *.
  set (m1' := round_nearest_even m1 (loc_of_shr_record mrs')) in *.
  clearbody m1 m1'. clear mrs'.
  change (2 ^ 52) with 4503599627370496 in *.
  change (2 ^ 53) with 9007199254740992 in *.
  destruct m1' as [|p|p]; [lia | | lia].
  destruct (Z.eq_dec (Zpos p) 9007199254740992) as [Hp | Hp].
  - assert (p = 9007199254740992%positive) by lia. subst p.
    replace (fexp 53 1024 (Zdigits2 9007199254740992 + (ex + n)) - (ex + n))
      with 1 by (unfold fexp, emin; cbn [Zdigits2 digits2_pos Pos.succ]; lia).
    cbn [shr shr_record_of_loc iter_pos shr_1 shr_m].
    replace (ex + n + 1 <=? 1024 - 53) with true
      by (symmetry; apply Z.leb_le; unfold n; lia).
    eexists _, _. split; [reflexivity |].
    replace (ex + n + 1 - ex) with (n + 1) by lia.
    rewrite Z.pow_add_r by lia. change (2 ^ 1) with 2.
    split; [lia |]. split; [lia |]. split; [unfold n; lia |]. nia.
  - assert (Hdp : Zpos (digits2_pos p) = 53).
    { apply digits2_pos_unique.
      change (2 ^ (53 - 1)) with 4503599627370496.
      change (2 ^ 53) with 9007199254740992. lia. }
    replace (fexp 53 1024 (Zdigits2 (Zpos p) + (ex + n)) - (ex + n))
      with 0 by (unfold fexp, emin; cbn [Zdigits2]; rewrite Hdp; unfold n; lia).
    cbn [shr shr_record_of_loc shr_m].
    replace (ex + n <=? 1024 - 53) with true
      by (symmetry; apply Z.leb_le; unfold n; lia).
    eexists _, _. split; [reflexivity |].
    replace (ex + n - ex) with n by lia.
    split; [lia |]. split; [lia |]. split; [unfold n; lia |]. nia.
Qed.

(** A mantissa of 53 digits that is exact is kept. *)
Lemma binary_round_aux_exact (sx : bool) (mx : positive) (ex : Z) :
  Zpos (digits2_pos mx) = 53 -> -1074 <= ex <= 971 ->
  binary_round_aux 53 1024 sx (Zpos mx) ex loc_Exact = S754_finite sx mx ex.
Proof.
  intros Hd He. unfold binary_round_aux, shr_fexp.
  replace (fexp 53 1024 (Zdigits2 (Zpos mx) + ex) - ex) with 0
    by (unfold fexp, emin; cbn [Zdigits2]; rewrite Hd; lia).
  cbn [shr shr_record_of_loc shr_m loc_of_shr_record round_nearest_even].
  replace (fexp 53 1024 (Zdigits2 (Zpos mx) + ex) - ex) with 0
    by (unfold fexp, emin; cbn [Zdigits2]; rewrite Hd; lia).
  cbn [shr shr_record_of_loc shr_m].
  replace (ex <=? 1024 - 53) with true by (symmetry; apply Z.leb_le; lia).
  reflexivity.
Qed.

Lemma iter_xO (p d : positive) :
  Zpos (Pos.iter xO p d) = Zpos p * 2 ^ Zpos d.
Proof.
  induction d as [|d IH] using Pos.peano_ind.
  - cbn [Pos.iter]. lia.
  - rewrite Pos.iter_succ, (Pos2Z.inj_xO (Pos.iter xO p d)), IH.
    rewrite Pos2Z.inj_succ, Z.pow_succ_r by lia. ring.
Qed.

(** The float of a whole number below 2^53 is that number. *)
Lemma float_of_Z_spec (a : Z) :
  0 < a < 2 ^ 53 ->
  exists m e,
    FloatOps.Prim2SF (float_of_Z a) = S754_finite false m e /\
    Zpos (digits2_pos m) = 53 /\ -52 <= e <= 0 /\
    Zpos m = a * 2 ^ (- e).
Proof.
  intros Ha. unfold float_of_Z.
  rewrite FloatAxioms.of_uint63_spec.
  change (2 ^ 53) with 9007199254740992 in Ha.
  replace (Uint63Axioms.to_Z (Uint63.of_Z a)) with a.
  2:{ symmetry. etransitivity; [apply Uint63.of_Z_spec |].
      apply Z.mod_small. change Uint63.wB with 9223372036854775808. lia. }
  destruct a as [|p|p]; [lia | | lia].
  change FloatOps.prec with 53. change FloatOps.emax with 1024.
  cbn [binary_normalize]. unfold binary_round.
  pose proof (digits2_pos_bounds p) as Hp.
  set (d := Zpos (digits2_pos p)) in *.
  assert (Hd : 1 <= d <= 53).
  { split; [unfold d; lia |].
    destruct (Z.le_gt_cases d 53) as [|Hgt]; [assumption |].
    assert (2 ^ 53 <= 2 ^ (d - 1)) by (apply Z.pow_le_mono_r; lia).
    change (2 ^ 53) with 9007199254740992 in *. lia. }
  replace (fexp 53 1024 (d + 0)) with (d - 53) by (unfold fexp, emin; lia).
  unfold shl_align.
  destruct (d - 53 - 0) as [|n|n] eqn:En; [| lia |].
  - rewrite binary_round_aux_exact by (fold d; lia).
    exists p, 0. repeat split; try (fold d; lia).
  - assert (Hn : Zpos n = 53 - d) by lia.
    assert (Hm : Zpos (Pos.iter xO p n) = Zpos p * 2 ^ (53 - d))
      by (rewrite iter_xO; now rewrite Hn).
    assert (Hdm : Zpos (digits2_pos (Pos.iter xO p n)) = 53).
    { apply digits2_pos_unique. rewrite Hm.
      assert (E1 : 2 ^ (53 - 1) = 2 ^ (d - 1) * 2 ^ (53 - d)).
      { rewrite <- Z.pow_add_r by lia. f_equal. lia. }
      assert (E2 : 2 ^ 53 = 2 ^ d * 2 ^ (53 - d)).
      { rewrite <- Z.pow_add_r by lia. f_equal. lia. }
      rewrite E1, E2.
      pose proof (pow2_pos (53 - d) ltac:(lia)). nia. }
    rewrite binary_round_aux_exact by (assumption || lia).
    exists (Pos.iter xO p n), (d - 53).
    repeat split; try assumption; try lia.
    rewrite Hm. f_equal. f_equal. lia.
Qed.

Local Close Scope Z_scope.
Local Open Scope Q_scope.

Lemma pow2_Qpower (e : Z) : pow2 e == 2 ^ e.
Proof.
  destruct e as [|p|p].
  - reflexivity.
  - change (inject_Z (2 ^ Zpos p) == inject_Z 2 ^ Zpos p).
    apply Zpower_Qpower. lia.
  - change (2 ^ Zneg p) with (/ (inject_Z 2 ^ Zpos p)).
    rewrite <- Zpower_Qpower by lia.
    change (2 ^ Zpos p)%Z with (Z.pow_pos 2 p).
    rewrite <- Pos2Z.inj_pow_pos. reflexivity.
Qed.

Lemma pow2_add (a b : Z) : pow2 (a + b) == pow2 a * pow2 b.
Proof.
  rewrite !pow2_Qpower. apply Qpower_plus. discriminate.
Qed.

Lemma pow2_nonneg (j : Z) : (0 <= j)%Z -> pow2 j == inject_Z (2 ^ j).
Proof.
  intros Hj. rewrite pow2_Qpower. symmetry.
  now apply (Zpower_Qpower 2 j).
Qed.

Lemma pow2_positive (e : Z) : 0 < pow2 e.
Proof.
  rewrite pow2_Qpower. now apply Qpower_0_lt.
Qed.

Lemma float_value_finite (x : PrimFloat.float) (m : positive) (e : Z) :
  FloatOps.Prim2SF x = S754_finite false m e ->
  float_value x == inject_Z (Zpos m) * pow2 e.
Proof.
  intros H. unfold float_value. rewrite H. apply Qred_correct.
Qed.

(** [binary_round_aux_spec] on the values. *)
Lemma binary_round_aux_value (sx : bool) (mx : positive) (ex : Z)
    (lx : location) :
  (53 <= Zpos (digits2_pos mx))%Z ->
  (-1074 <= Zpos (digits2_pos mx) + ex - 53)%Z ->
  (Zpos (digits2_pos mx) + ex <= 1023)%Z ->
  exists m e,
    binary_round_aux 53 1024 sx (Zpos mx) ex lx = S754_finite sx m e /\
    (ex <= e <= ex + (Zpos (digits2_pos mx) - 53) + 1)%Z /\
    (2 ^ 52 <= Zpos m < 2 ^ 53)%Z /\
    inject_Z (Zpos m - 1) * pow2 e <= inject_Z (Zpos mx) * pow2 ex /\
    inject_Z (Zpos mx + 1) * pow2 ex <= inject_Z (Zpos m + 1) * pow2 e.
Proof.
  intros Hd Hlo Hhi.
  destruct (binary_round_aux_spec sx mx ex lx Hd Hlo Hhi)
    as (m & e & Hr & He & Hm & He' & H1 & H2).
  exists m, e. split; [exact Hr |]. split; [lia |]. split; [exact Hm |].
  assert (Hp : pow2 e == inject_Z (2 ^ (e - ex)) * pow2 ex).
  { rewrite <- pow2_nonneg by lia. rewrite <- pow2_add.
    now replace (e - ex + ex)%Z with e by lia. }
  rewrite Hp, !Qmult_assoc, <- !inject_Z_mult.
  pose proof (pow2_positive ex) as Hpos.
  split; (apply Qmult_le_compat_r; [rewrite <- Zle_Qle; lia | now apply Qlt_le_weak]).
Qed.

Lemma Zfrac_le (x1 y1 x2 y2 : Z) :
  (0 < y1)%Z -> (0 < y2)%Z -> (x1 * y2 <= x2 * y1)%Z ->
  inject_Z x1 / inject_Z y1 <= inject_Z x2 / inject_Z y2.
Proof.
  intros H1 H2 H.
  apply Qle_shift_div_l; [now rewrite <- (Zlt_Qlt 0) |].
  unfold Qdiv. rewrite <- Qmult_assoc, (Qmult_comm (/ _)), Qmult_assoc.
  apply Qle_shift_div_r; [now rewrite <- (Zlt_Qlt 0) |].
  rewrite <- !inject_Z_mult. now rewrite <- Zle_Qle.
Qed.

(** The quotient of two whole numbers below 2^53, as a float: a float of
    53 digits, and the exact quotient lies between its two neighbours. *)
Lemma div_close (a b : Z) :
  (0 < a < 2 ^ 53)%Z -> (0 < b < 2 ^ 53)%Z ->
  exists m e,
    FloatOps.Prim2SF (PrimFloat.div (float_of_Z a) (float_of_Z b)) =
      S754_finite false m e /\
    (2 ^ 52 <= Zpos m < 2 ^ 53)%Z /\ (-105 <= e <= 54)%Z /\
    inject_Z (Zpos m - 1) * pow2 e <= inject_Z a / inject_Z b /\
    inject_Z a / inject_Z b <= inject_Z (Zpos m + 1) * pow2 e.
Proof.
  intros Ha Hb.
  destruct (float_of_Z_spec a Ha) as (ma & ea & Hfa & Hda & Hea & Hma).
  destruct (float_of_Z_spec b Hb) as (mb & eb & Hfb & Hdb & Heb & Hmb).
  rewrite FloatAxioms.div_spec, Hfa, Hfb.
  unfold FloatAxioms.SF64div, SFdiv, SFdiv_core_binary.
  change FloatOps.prec with 53%Z. change FloatOps.emax with 1024%Z.
  cbn [Zdigits2 xorb]. rewrite Hda, Hdb.
  replace (Z.min (fexp 53 1024 (53 + ea - (53 + eb))) (ea - eb))
    with (ea - eb - 53)%Z by (unfold fexp, emin; lia).
  replace (ea - eb - (ea - eb - 53))%Z with 53%Z by lia.
  rewrite Z.shiftl_mul_pow2 by lia.
  pose proof (Z.div_eucl_eq (Zpos ma * 2 ^ 53) (Zpos mb) ltac:(lia)) as Hq.
  pose proof (Z.mod_pos_bound (Zpos ma * 2 ^ 53) (Zpos mb) ltac:(lia)) as Hr.
  unfold Z.modulo in Hr.
  destruct (Z.div_eucl (Zpos ma * 2 ^ 53) (Zpos mb)) as [q r].
  pose proof (digits2_pos_bounds ma) as Bma. rewrite Hda in Bma.
  pose proof (digits2_pos_bounds mb) as Bmb. rewrite Hdb in Bmb.
  change (2 ^ (53 - 1))%Z with 4503599627370496%Z in *.
  change (2 ^ 53)%Z with 9007199254740992%Z in *.
  change (2 ^ 52)%Z with 4503599627370496%Z in *.
  assert (Hqb : (4503599627370496 <= q < 18014398509481984)%Z) by nia.
  destruct q as [|pq|pq]; [lia | | lia].
  assert (Hdq : (53 <= Zpos (digits2_pos pq) <= 54)%Z).
  { pose proof (digits2_pos_bounds pq) as Bq.
    set (d := Zpos (digits2_pos pq)) in *. split.
    - destruct (Z.le_gt_cases 53 d) as [|Hgt]; [assumption |].
      assert (2 ^ d <= 2 ^ 52)%Z by (apply Z.pow_le_mono_r; lia).
      change (2 ^ 52)%Z with 4503599627370496%Z in *. lia.
    - destruct (Z.le_gt_cases d 54) as [|Hgt]; [assumption |].
      assert (2 ^ 54 <= 2 ^ (d - 1))%Z by (apply Z.pow_le_mono_r; lia).
      change (2 ^ 54)%Z with 18014398509481984%Z in *. lia. }
  destruct (binary_round_aux_value false pq (ea - eb - 53)
              (new_location (Zpos mb) r)) as (m & e & Hres & He & Hm & H1 & H2);
    [lia | lia | lia |].
  exists m, e. split; [exact Hres |].
  change (2 ^ 53)%Z with 9007199254740992%Z in *.
  change (2 ^ 52)%Z with 4503599627370496%Z in *.
  split; [lia |]. split; [lia |].
  set (A := (2 ^ (- ea))%Z) in *. set (B := (2 ^ (- eb))%Z) in *.
  assert (HA : (0 < A)%Z) by (apply pow2_pos; lia).
  assert (HB : (0 < B)%Z) by (apply pow2_pos; lia).
  set (K := 9007199254740992%Z) in *.
  assert (HK : (0 < A * K)%Z) by (unfold K; lia).
  assert (HP : pow2 (ea - eb - 53) * inject_Z (A * K) == inject_Z B).
  { unfold A, B. rewrite inject_Z_mult, <- !pow2_nonneg by lia.
    change (inject_Z K) with (pow2 53).
    rewrite <- !pow2_add. now replace (ea - eb - 53 + (- ea + 53))%Z with (- eb)%Z by lia. }
  set (P := pow2 (ea - eb - 53)) in *.
  split.
  - eapply Qle_trans; [exact H1 |].
    apply Qle_shift_div_l; [rewrite <- (Zlt_Qlt 0); lia |].
    apply (Qmult_le_r _ _ (inject_Z (A * K))); [now rewrite <- (Zlt_Qlt 0) |].
    setoid_replace (inject_Z (Zpos pq) * P * inject_Z b * inject_Z (A * K))
      with (inject_Z (Zpos pq) * inject_Z b * (P * inject_Z (A * K)))
      using relation Qeq by ring.
    rewrite HP, <- !inject_Z_mult, <- Zle_Qle. nia.
  - eapply Qle_trans; [| exact H2].
    apply Qle_shift_div_r; [rewrite <- (Zlt_Qlt 0); lia |].
    apply (Qmult_le_r _ _ (inject_Z (A * K))); [now rewrite <- (Zlt_Qlt 0) |].
    setoid_replace (inject_Z (Zpos pq + 1) * P * inject_Z b * inject_Z (A * K))
      with (inject_Z (Zpos pq + 1) * inject_Z b * (P * inject_Z (A * K)))
      using relation Qeq by ring.
    rewrite HP, <- !inject_Z_mult, <- Zle_Qle. nia.
Qed.

Lemma float_100 :
  FloatOps.Prim2SF (float_of_Z 100) = S754_finite false 7036874417766400 (-46).
Proof. vm_compute. reflexivity. Qed.

(** A float of 53 digits times 100, as a float. *)
Lemma mul_close (y : PrimFloat.float) (my : positive) (ey : Z) :
  FloatOps.Prim2SF y = S754_finite false my ey ->
  (2 ^ 52 <= Zpos my < 2 ^ 53)%Z -> (-105 <= ey <= 54)%Z ->
  exists m e,
    FloatOps.Prim2SF (PrimFloat.mul y (float_of_Z 100)) =
      S754_finite false m e /\
    (2 ^ 52 <= Zpos m < 2 ^ 53)%Z /\
    inject_Z (Zpos m - 1) * pow2 e <= 100 * (inject_Z (Zpos my) * pow2 ey) /\
    100 * (inject_Z (Zpos my) * pow2 ey) <= inject_Z (Zpos m + 1) * pow2 e.
Proof.
  intros Hy Hmy Hey.
  rewrite FloatAxioms.mul_spec, Hy, float_100.
  unfold FloatAxioms.SF64mul, SFmul.
  change FloatOps.prec with 53%Z. change FloatOps.emax with 1024%Z.
  cbn [xorb].
  change (2 ^ 53)%Z with 9007199254740992%Z in *.
  change (2 ^ 52)%Z with 4503599627370496%Z in *.
  set (mx := (my * 7036874417766400)%positive).
  assert (Hmx : Zpos mx = (Zpos my * 7036874417766400)%Z) by reflexivity.
  assert (Hdx : (105 <= Zpos (digits2_pos mx) <= 106)%Z).
  { pose proof (digits2_pos_bounds mx) as Bx.
    set (d := Zpos (digits2_pos mx)) in *. split.
    - destruct (Z.le_gt_cases 105 d) as [|Hgt]; [assumption |].
      assert (2 ^ d <= 2 ^ 104)%Z by (apply Z.pow_le_mono_r; lia).
      change (2 ^ 104)%Z with 20282409603651670423947251286016%Z in *. lia.
    - destruct (Z.le_gt_cases d 106) as [|Hgt]; [assumption |].
      assert (2 ^ 106 <= 2 ^ (d - 1))%Z by (apply Z.pow_le_mono_r; lia).
      change (2 ^ 106)%Z with 81129638414606681695789005144064%Z in *. lia. }
  destruct (binary_round_aux_value false mx (ey + -46) loc_Exact)
    as (m & e & Hres & He & Hm & H1 & H2); [lia | lia | lia |].
  exists m, e. split; [exact Hres |]. split; [exact Hm |].
  assert (Hv : inject_Z (Zpos mx) * pow2 (ey + -46) ==
               100 * (inject_Z (Zpos my) * pow2 ey)).
  { rewrite Hmx, inject_Z_mult, pow2_add.
    setoid_replace (inject_Z (Zpos my) * inject_Z 7036874417766400 *
                    (pow2 ey * pow2 (-46)))
      with (inject_Z 7036874417766400 * pow2 (-46) *
            (inject_Z (Zpos my) * pow2 ey))
      using relation Qeq by ring.
    apply Qmult_comp; reflexivity. }
  rewrite <- Hv. split; [exact H1 |].
  eapply Qle_trans; [| exact H2].
  apply Qmult_le_compat_r; [rewrite <- Zle_Qle; lia |].
  apply Qlt_le_weak, pow2_positive.
Qed.

Lemma inject_Z_sub (a b : Z) : inject_Z (a - b) == inject_Z a - inject_Z b.
Proof.
  unfold Z.sub. now rewrite inject_Z_plus, inject_Z_opp.
Qed.

Lemma round_half_even_spec (x : Q) :
  inject_Z (round_half_even x) - (1 # 2) <= x /\
  x <= inject_Z (round_half_even x) + (1 # 2).
Proof.
  destruct x as [n d]. unfold round_half_even. cbn [Qnum Qden].
  pose proof (Z.div_mod n (Zpos d) ltac:(lia)) as Hn.
  pose proof (Z.mod_pos_bound n (Zpos d) ltac:(lia)) as Hr.
  set (f := (n / Zpos d)%Z) in *. set (r := (n mod Zpos d)%Z) in *.
  assert (H : forall k : Z,
             ((2 * k - 1) * Zpos d <= 2 * n <= (2 * k + 1) * Zpos d)%Z ->
             inject_Z k - (1 # 2) <= n # d /\ n # d <= inject_Z k + (1 # 2)).
  { intros k Hk. unfold Qle, Qminus, Qplus, Qopp, inject_Z. cbn [Qnum Qden].
    rewrite !Pos2Z.inj_mul. lia. }
  apply H.
  destruct (2 * r <? Zpos d)%Z eqn:E1; [apply Z.ltb_lt in E1; lia |].
  apply Z.ltb_ge in E1.
  destruct (Zpos d <? 2 * r)%Z eqn:E2; [apply Z.ltb_lt in E2; lia |].
  apply Z.ltb_ge in E2.
  destruct (Z.even f); lia.
Qed.

(** Two roundings, each to a neighbour of the exact result, move a
    percentage by less than 10^-13. *)
Lemma two_roundings (Xf v Y u rho : Q) :
  0 < u -> 0 < v ->
  4503599627370496 * u <= Y -> 4503599627370496 * v <= Xf ->
  Y - u <= rho -> rho <= Y + u ->
  Xf - v <= 100 * Y -> 100 * Y <= Xf + v ->
  0 <= rho -> rho <= 1 ->
  10 * Xf <= 1000 * rho + (1 # 1000000000000) /\
  1000 * rho - (1 # 1000000000000) <= 10 * Xf.
Proof.
  intros. split.
  - assert (Y <= rho + u) by lra.
    assert (u <= 1 # 4503599627370495) by lra.
    assert (Y <= 2) by lra.
    assert (v <= 201 # 4503599627370495) by lra. lra.
  - lra.
Qed.

Lemma nearest_Q (X phi q k : Q) :
  X <= q + phi + (1 # 1000000000000) -> q + phi - (1 # 1000000000000) <= X ->
  k - (1 # 2) <= X -> X <= k + (1 # 2) ->
  (phi <= (1 # 2) - (1 # 200000000000) -> 0 <= phi ->
   q - 1 < k /\ k < q + 1) /\
  ((1 # 2) + (1 # 200000000000) <= phi -> phi <= 1 ->
   q < k /\ k < q + 2) /\
  (phi == 1 # 2 -> q - 1 < k /\ k < q + 2).
Proof.
  intros. split; [| split]; intros; split; lra.
Qed.

Lemma float_0 : FloatOps.Prim2SF (float_of_Z 0) = S754_zero false.
Proof. vm_compute. reflexivity. Qed.

Lemma float_tenths_0 (t : Z) :
  (0 < t < 2 ^ 53)%Z -> float_tenths 0 t = 0%Z.
Proof.
  intros Ht. unfold float_tenths, float_value.
  destruct (float_of_Z_spec t Ht) as (m & e & Hf & _).
  rewrite FloatAxioms.mul_spec, FloatAxioms.div_spec, float_0, Hf, float_100.
  reflexivity.
Qed.

(** Where the float computation puts the percentage of [c] out of [t],
    in tenths: at the tenth nearest to the exact share, and at one of the
    two nearest when the share is half-way. *)
Lemma float_tenths_cases (c t : Z) :
  (0 < t <= 100000000000)%Z -> (0 <= c <= t)%Z ->
  let q := (1000 * c / t)%Z in
  let r := ((1000 * c) mod t)%Z in
  let k := float_tenths c t in
  ((2 * r < t)%Z -> k = q) /\
  ((t < 2 * r)%Z -> k = (q + 1)%Z) /\
  ((2 * r = t)%Z -> k = q \/ k = (q + 1)%Z).
Proof.
  intros Ht Hc q r k.
  pose proof (Z.div_mod (1000 * c) t ltac:(lia)) as Hdm.
  pose proof (Z.mod_pos_bound (1000 * c) t ltac:(lia)) as Hr.
  fold q r in Hdm, Hr.
  assert (Ht53 : (0 < t < 2 ^ 53)%Z)
    by (change (2 ^ 53)%Z with 9007199254740992%Z; lia).
  destruct (Z.eq_dec c 0%Z) as [-> | Hc0].
  { assert (Hk : k = 0%Z) by (apply float_tenths_0; exact Ht53).
    assert (Hq : q = 0%Z) by (unfold q; now rewrite Z.mul_0_r, Z.div_0_l by lia).
    assert (Hr0 : r = 0%Z) by (unfold r; now rewrite Z.mul_0_r, Z.mod_0_l by lia).
    rewrite Hk, Hq, Hr0. repeat split; intros; lia. }
  assert (Hc53 : (0 < c < 2 ^ 53)%Z)
    by (change (2 ^ 53)%Z with 9007199254740992%Z; lia).
  destruct (div_close c t Hc53 Ht53) as (my & ey & Hy & Hmy & Hey & Hy1 & Hy2).
  destruct (mul_close _ my ey Hy Hmy Hey) as (mz & ez & Hz & Hmz & Hz1 & Hz2).
  pose proof (float_value_finite _ mz ez Hz) as Hv.
  pose proof (round_half_even_spec
                (float_value
                   (PrimFloat.mul
                      (PrimFloat.div (float_of_Z c) (float_of_Z t))
                      (float_of_Z 100)) * 10)) as [Hk1 Hk2].
  change (round_half_even _) with k in Hk1, Hk2.
  rewrite Hv in Hk1, Hk2. clear Hv Hz Hy.
  pose proof (pow2_positive ey) as Hu. pose proof (pow2_positive ez) as Hw.
  set (u := pow2 ey) in *. set (v := pow2 ez) in *.
  rewrite inject_Z_sub in Hy1, Hz1. rewrite inject_Z_plus in Hy2, Hz2.
  change (2 ^ 52)%Z with 4503599627370496%Z in *.
  assert (Hmy' : 4503599627370496 * u <= inject_Z (Zpos my) * u).
  { apply Qmult_le_compat_r; [| now apply Qlt_le_weak].
    change 4503599627370496 with (inject_Z 4503599627370496).
    rewrite <- Zle_Qle. lia. }
  assert (Hmz' : 4503599627370496 * v <= inject_Z (Zpos mz) * v).
  { apply Qmult_le_compat_r; [| now apply Qlt_le_weak].
    change 4503599627370496 with (inject_Z 4503599627370496).
    rewrite <- Zle_Qle. lia. }
  set (rho := inject_Z c / inject_Z t) in *.
  setoid_replace ((inject_Z (Zpos my) - inject_Z 1) * u)
    with (inject_Z (Zpos my) * u - u) using relation Qeq in Hy1
    by (change (inject_Z 1) with 1; ring).
  setoid_replace ((inject_Z (Zpos my) + inject_Z 1) * u)
    with (inject_Z (Zpos my) * u + u) using relation Qeq in Hy2
    by (change (inject_Z 1) with 1; ring).
  setoid_replace ((inject_Z (Zpos mz) - inject_Z 1) * v)
    with (inject_Z (Zpos mz) * v - v) using relation Qeq in Hz1
    by (change (inject_Z 1) with 1; ring).
  setoid_replace ((inject_Z (Zpos mz) + inject_Z 1) * v)
    with (inject_Z (Zpos mz) * v + v) using relation Qeq in Hz2
    by (change (inject_Z 1) with 1; ring).
  set (Y := inject_Z (Zpos my) * u) in *.
  set (Xf := inject_Z (Zpos mz) * v) in *.
  assert (Hrho : 0 <= rho /\ rho <= 1).
  { unfold rho. split.
    - apply Qle_shift_div_l; [rewrite <- (Zlt_Qlt 0); lia |].
      rewrite Qmult_0_l. rewrite <- (Zle_Qle 0). lia.
    - apply Qle_shift_div_r; [rewrite <- (Zlt_Qlt 0); lia |].
      rewrite Qmult_1_l. rewrite <- Zle_Qle. lia. }
  destruct Hrho as [Hrho0 Hrho1].
  destruct (two_roundings Xf v Y u rho) as [HX1 HX2]; try assumption.
  set (phi := inject_Z r / inject_Z t).
  assert (HtQ : 0 < inject_Z t) by (rewrite <- (Zlt_Qlt 0); lia).
  assert (HR : 1000 * rho == inject_Z q + phi).
  { unfold rho, phi.
    assert (E : 1000 * inject_Z c == inject_Z t * inject_Z q + inject_Z r).
    { change 1000 with (inject_Z 1000).
      rewrite <- !inject_Z_mult, <- inject_Z_plus. now rewrite Hdm. }
    field_simplify_eq; [| intros F; rewrite F in HtQ; now apply Qlt_irrefl in HtQ].
    rewrite E. ring. }
  assert (HtQ' : ~ inject_Z t == 0)
    by (intros F; rewrite F in HtQ; now apply Qlt_irrefl in HtQ).
  assert (Hphi0 : 0 <= phi).
  { unfold phi. apply Qle_shift_div_l; [exact HtQ |].
    rewrite Qmult_0_l, <- (Zle_Qle 0). lia. }
  assert (Hphi1 : phi <= 1).
  { unfold phi. apply Qle_shift_div_r; [exact HtQ |].
    rewrite Qmult_1_l, <- Zle_Qle. lia. }
  assert (HphiA : (2 * r < t)%Z -> phi <= (1 # 2) - (1 # 200000000000)).
  { intros H. unfold phi. apply Qle_shift_div_r; [exact HtQ |].
    unfold Qle, Qminus, Qplus, Qopp, Qmult, inject_Z. cbn [Qnum Qden]. lia. }
  assert (HphiB : (t < 2 * r)%Z -> (1 # 2) + (1 # 200000000000) <= phi).
  { intros H. unfold phi. apply Qle_shift_div_l; [exact HtQ |].
    unfold Qle, Qminus, Qplus, Qopp, Qmult, inject_Z. cbn [Qnum Qden]. lia. }
  assert (HphiC : (2 * r = t)%Z -> phi == 1 # 2).
  { intros H. unfold phi. rewrite <- H, inject_Z_mult.
    change (inject_Z 2) with 2. field.
    intros F. apply HtQ'. rewrite <- H, inject_Z_mult, F. ring. }
  clearbody phi rho Xf Y u v.
  destruct (nearest_Q (10 * Xf) phi (inject_Z q) (inject_Z k))
    as (N1 & N2 & N3); try lra.
  assert (Zk : forall a b : Z, inject_Z a - 1 < inject_Z b -> (a - 1 < b)%Z).
  { intros a b H. rewrite Zlt_Qlt, inject_Z_sub. exact H. }
  assert (Zk1 : forall a b : Z, inject_Z b < inject_Z a + 1 -> (b < a + 1)%Z).
  { intros a b H. rewrite Zlt_Qlt, inject_Z_plus. exact H. }
  assert (Zk2 : forall a b : Z, inject_Z b < inject_Z a + 2 -> (b < a + 2)%Z).
  { intros a b H. rewrite Zlt_Qlt, inject_Z_plus. exact H. }
  assert (Zk0 : forall a b : Z, inject_Z a < inject_Z b -> (a < b)%Z).
  { intros a b H. now rewrite Zlt_Qlt. }
  split; [| split].
  - intros H. destruct (N1 (HphiA H) Hphi0) as [A B].
    apply Zk in A. apply Zk1 in B. lia.
  - intros H. destruct (N2 (HphiB H) Hphi1) as [A B].
    apply Zk0 in A. apply Zk2 in B. lia.
  - intros H. destruct (N3 (HphiC H)) as [A B].
    apply Zk in A. apply Zk2 in B. lia.
Qed.

(** The percentages of the model are the ones of the float computation
    [round(count / total * 100, 1)], for every total up to 10^11. *)
Theorem float_tenths_nearest (c t : Z) :
  (0 < t <= 100000000000)%Z -> (0 <= c <= t)%Z ->
  float_tenths c t = round_tenths float_tie_up c t.
Proof.
  intros Ht Hc.
  destruct (float_tenths_cases c t Ht Hc) as (H1 & H2 & H3).
  unfold round_tenths, float_tie_up.
  destruct (2 * ((1000 * c) mod t) <? t)%Z eqn:E1.
  - apply Z.ltb_lt in E1. auto.
  - apply Z.ltb_ge in E1.
    destruct (t <? 2 * ((1000 * c) mod t))%Z eqn:E2.
    + apply Z.ltb_lt in E2. auto.
    + apply Z.ltb_ge in E2.
      destruct (H3 ltac:(lia)) as [Hk | Hk]; rewrite Hk.
      * now rewrite Z.ltb_irrefl.
      * replace (1000 * c / t <? 1000 * c / t + 1)%Z with true; [reflexivity |].
        symmetry. apply Z.ltb_lt. lia.
Qed.

End FloatFacts.


(** ** The daily reporter *)

Module ReporterFacts.

Import Reporter.

Local Open Scope string_scope.

(** *** Statistics *)

(** The rounded value, in tenths, is within half a tenth of the exact
    percentage [1000 * count / total], whatever happens at a tie. *)
Lemma round_tenths_close (tie_up : Z -> Z -> bool) (count total : Z) :
  (0 < total)%Z ->
  (- total <= 2 * (total * round_tenths tie_up count total - 1000 * count)
   <= total)%Z.
Proof.
  intros Ht. unfold round_tenths.
  pose proof (Z.div_mod (1000 * count) total ltac:(lia)) as Hdm.
  pose proof (Z.mod_pos_bound (1000 * count) total Ht) as Hr.
  set (q := (1000 * count / total)%Z) in *.
  set (r := ((1000 * count) mod total)%Z) in *.
  destruct (Z.ltb_spec (2 * r) total).
  - lia.
  - destruct (Z.ltb_spec total (2 * r)).
    + lia.
    + destruct (tie_up count total); lia.
Qed.

Lemma tenths_sum (a b c : Z) :
  (-1 <= a + b + c - 1000 <= 1)%Z ->
  (Qabs ((a # 10) + (b # 10) + (c # 10) - 100) <= 1 # 10)%Q.
Proof.
  intros H. apply Qabs_Qle_condition.
  unfold Qle, Qplus, Qminus, Qopp. cbn. lia.
Qed.

(** *** Counting *)

Definition has_label (label : string) (it : item) : bool :=
  is_str (sentiment it) label.

(** Neither "positive" nor "negative": any other label, or none. *)
Definition is_other (it : item) : bool :=
  negb (has_label "positive" it) && negb (has_label "negative" it).

Lemma count_sentiment_filter (label : string) (data : list item) :
  count_sentiment label data =
  Z.of_nat (length (List.filter (has_label label) data)).
Proof.
  unfold count_sentiment.
  enough (H : forall n,
             fold_left (fun n it =>
                          if is_str (sentiment it) label then (n + 1)%Z else n)
                       data n =
             (n + Z.of_nat (length (List.filter (has_label label) data)))%Z)
    by (rewrite H; lia).
  induction data as [|it data IH]; intros n; cbn [fold_left List.filter].
  - cbn. lia.
  - rewrite IH. unfold has_label at 2.
    destruct (is_str (sentiment it) label); cbn [length]; lia.
Qed.

Lemma labels_exclusive (it : item) :
  has_label "positive" it = true -> has_label "negative" it = false.
Proof.
  unfold has_label. destruct (sentiment it) as [s|]; [|discriminate].
  cbn. intros H. apply String.eqb_eq in H. now subst.
Qed.

(** Every record is counted once: as positive, as negative, or as
    neither. *)
Lemma counts_partition (data : list item) :
  (count_sentiment "positive" data + count_sentiment "negative" data
   + Z.of_nat (length (List.filter is_other data)) = len data)%Z.
Proof.
  rewrite !count_sentiment_filter. unfold len.
  induction data as [|it data IH]; [reflexivity |].
  cbn [List.filter length]. unfold is_other at 1.
  destruct (has_label "positive" it) eqn:Ep.
  - rewrite (labels_exclusive it Ep). cbn [negb andb length]. lia.
  - destruct (has_label "negative" it); cbn [negb andb length]; lia.
Qed.

Lemma count_sentiment_nonneg (label : string) (data : list item) :
  (0 <= count_sentiment label data)%Z.
Proof. rewrite count_sentiment_filter. lia. Qed.

Lemma round_tenths_range (tie_up : Z -> Z -> bool) (count total : Z) :
  (0 < total)%Z -> (0 <= count <= total)%Z ->
  (0 <= round_tenths tie_up count total <= 1000)%Z.
Proof.
  intros Ht Hc.
  pose proof (round_tenths_close tie_up count total Ht) as H.
  set (k := round_tenths tie_up count total) in *. nia.
Qed.

(** The float of a percentage is within 2^-47 of its tenth, and between 0
    and 100: checked for each of the 1001 tenths. *)
Definition float_error : Q := 1 # 140737488355328.

Definition tenth_ok (k : Z) : bool :=
  Qle_bool (Qabs (tenths_as_float k - (k # 10))) float_error
  && Qle_bool 0 (tenths_as_float k) && Qle_bool (tenths_as_float k) 100.

Lemma tenths_table :
  forallb (fun n => tenth_ok (Z.of_nat n)) (seq 0 1001) = true.
Proof. vm_compute. reflexivity. Qed.

Lemma tenths_as_float_close (k : Z) :
  (0 <= k <= 1000)%Z ->
  (Qabs (tenths_as_float k - (k # 10)) <= float_error)%Q /\
  (0 <= tenths_as_float k <= 100)%Q.
Proof.
  intros Hk. pose proof tenths_table as H.
  rewrite forallb_forall in H.
  specialize (H (Z.to_nat k)). rewrite Z2Nat.id in H by lia.
  assert (Hin : In (Z.to_nat k) (seq 0 1001)) by (apply in_seq; lia).
  apply H in Hin. unfold tenth_ok in Hin.
  apply andb_true_iff in Hin as [Hin H3].
  apply andb_true_iff in Hin as [H1 H2].
  apply Qle_bool_iff in H1, H2, H3. now repeat split.
Qed.

Lemma percentage_close (tie_up : Z -> Z -> bool) (count total : Z) :
  (0 < total)%Z -> (0 <= count <= total)%Z ->
  (Qabs (percentage tie_up count total
         - (round_tenths tie_up count total # 10)) <= float_error)%Q /\
  (0 <= percentage tie_up count total <= 100)%Q.
Proof.
  intros Ht Hc. apply tenths_as_float_close.
  now apply round_tenths_range.
Qed.

(** The percentages of the model, with the rounding direction of the
    floats at a tie, are the ones of the float computation
    [round(count / total * 100, 1)], for every total up to 10^11. *)
Lemma percentage_is_float_percentage (count total : Z) :
  (0 < total <= 100000000000)%Z -> (0 <= count <= total)%Z ->
  percentage float_tie_up count total = float_percentage count total.
Proof.
  intros Ht Hc. unfold percentage, float_percentage. f_equal.
  symmetry. now apply FloatFacts.float_tenths_nearest.
Qed.

(** With the rounding direction of the floats, the statistics of a
    collection of up to 10^11 records are the float computations of the
    source. *)
Lemma stats_are_float_percentages (data : list item) :
  (0 < length data)%nat -> (len data <= 100000000000)%Z ->
  calculate_sentiment_stats float_tie_up data =
  {| positive := float_percentage (count_sentiment "positive" data)
                                  (len data);
     negative := float_percentage (count_sentiment "negative" data)
                                  (len data);
     neutral := float_percentage
                  (len data - count_sentiment "positive" data
                   - count_sentiment "negative" data) (len data);
     count := len data |}.
Proof.
  intros Hlen Hmax. destruct data as [|it data]; [simpl in Hlen; lia |].
  cbn [calculate_sentiment_stats].
  pose proof (counts_partition (it :: data)) as Hpart.
  pose proof (count_sentiment_nonneg "positive" (it :: data)) as Hp0.
  pose proof (count_sentiment_nonneg "negative" (it :: data)) as Hn0.
  assert (Ht : (0 < len (it :: data))%Z) by (unfold len; simpl length; lia).
  rewrite !percentage_is_float_percentage by lia. reflexivity.
Qed.

(** C3, as amended.  For every non-empty collection the three percentages
    of [calculate_sentiment_stats] are floats whose sum is within 0.1 of
    100.0 up to the representation error of the floats (at most 3 * 2^-47
    more), and the count is the size of the collection; for the empty
    collection all four fields are 0. *)
Theorem stats_percentages_sum_near_100
    (tie_up : Z -> Z -> bool) (data : list item) :
  calculate_sentiment_stats tie_up [] =
    {| positive := 0; negative := 0; neutral := 0; count := 0 |} /\
  ((0 < length data)%nat ->
   (Qabs (positive (calculate_sentiment_stats tie_up data)
          + negative (calculate_sentiment_stats tie_up data)
          + neutral (calculate_sentiment_stats tie_up data) - 100)
    <= (1 # 10) + 3 * float_error)%Q /\
   count (calculate_sentiment_stats tie_up data) = Z.of_nat (length data)).
Proof.
  split; [reflexivity |].
  intros Hlen. destruct data as [|it data]; [simpl in Hlen; lia |].
  cbn [calculate_sentiment_stats positive negative neutral count].
  split; [|reflexivity].
  set (total := len (it :: data)).
  assert (Ht : (0 < total)%Z) by (unfold total, len; simpl length; lia).
  pose proof (counts_partition (it :: data)) as Hpart. fold total in Hpart.
  pose proof (count_sentiment_nonneg "positive" (it :: data)) as Hp0.
  pose proof (count_sentiment_nonneg "negative" (it :: data)) as Hn0.
  set (pos := count_sentiment "positive" (it :: data)) in *.
  set (neg := count_sentiment "negative" (it :: data)) in *.
  assert (Hp1 : (0 <= pos <= total)%Z) by lia.
  assert (Hn1 : (0 <= neg <= total)%Z) by lia.
  assert (Hu1 : (0 <= total - pos - neg <= total)%Z) by lia.
  pose proof (round_tenths_close tie_up pos total Ht) as Hp.
  pose proof (round_tenths_close tie_up neg total Ht) as Hn.
  pose proof (round_tenths_close tie_up (total - pos - neg) total Ht) as Hu.
  destruct (percentage_close tie_up pos total Ht Hp1) as [Fp _].
  destruct (percentage_close tie_up neg total Ht Hn1) as [Fn _].
  destruct (percentage_close tie_up (total - pos - neg) total Ht Hu1)
    as [Fu _].
  assert (Hs : (Qabs ((round_tenths tie_up pos total # 10)
                      + (round_tenths tie_up neg total # 10)
                      + (round_tenths tie_up (total - pos - neg) total # 10)
                      - 100) <= 1 # 10)%Q).
  { apply tenths_sum.
    set (kp := round_tenths tie_up pos total) in *.
    set (kn := round_tenths tie_up neg total) in *.
    set (ku := round_tenths tie_up (total - pos - neg) total) in *.
    nia. }
  revert Fp Fn Fu Hs.
  generalize (percentage tie_up pos total) as p.
  generalize (percentage tie_up neg total) as n.
  generalize (percentage tie_up (total - pos - neg) total) as u.
  generalize (round_tenths tie_up pos total # 10) as a.
  generalize (round_tenths tie_up neg total # 10) as b.
  generalize (round_tenths tie_up (total - pos - neg) total # 10) as c.
  intros c b a u n p Fp Fn Fu Hs.
  apply Qabs_Qle_condition in Fp, Fn, Fu, Hs.
  apply Qabs_Qle_condition. unfold float_error in *. lra.
Qed.

Definition sample_item (label : string) (conf : Q) (level : string) : item :=
  {| timestamp := Some "2024-05-01T08:00:00";
     platform := Some "reddit";
     source_url := Some "https://www.reddit.com/r/all/top";
     text := Some "This release is wonderful, thank you all";
     sentiment := Some label;
     intensity := Some level;
     confidence := Some conf;
     emotional_indicators := Some ["joy"];
     reasoning := Some "Warm wording" |}.

Lemma stats_percentages_sum_near_100_witness :
  (0 < length [sample_item "positive" (9 # 10) "high";
               sample_item "negative" (3 # 10) "low";
               sample_item "neutral" (5 # 10) "low"])%nat /\
  count (calculate_sentiment_stats half_even
           [sample_item "positive" (9 # 10) "high";
            sample_item "negative" (3 # 10) "low";
            sample_item "neutral" (5 # 10) "low"]) = 3%Z.
Proof.
  split; [simpl; lia |].
  apply (stats_percentages_sum_near_100 half_even
           [sample_item "positive" (9 # 10) "high";
            sample_item "negative" (3 # 10) "low";
            sample_item "neutral" (5 # 10) "low"]).
  simpl. lia.
Defined.

(** One third each: the float 33.3 three times, whose value is
    2343279181116211 / 2^46, a little below 33.3. *)
Example stats_of_three_thirds :
  calculate_sentiment_stats half_even
    [sample_item "positive" (9 # 10) "high";
     sample_item "negative" (3 # 10) "low";
     sample_item "neutral" (5 # 10) "low"] =
  {| positive := 2343279181116211 # 70368744177664;
     negative := 2343279181116211 # 70368744177664;
     neutral := 2343279181116211 # 70368744177664;
     count := 3 |}.
Proof. vm_compute. reflexivity. Qed.


(** C3, as stated, fails: for one positive, one negative and one neutral
    record each returned float is the one nearest to 33.3, which lies below
    33.3, and the three sum to a value more than 0.1 away from 100. *)
Lemma stats_sum_misses_tolerance :
  ~ (Qabs (positive (calculate_sentiment_stats float_tie_up
                       [sample_item "positive" (9 # 10) "high";
                        sample_item "negative" (3 # 10) "low";
                        sample_item "neutral" (5 # 10) "low"])
           + negative (calculate_sentiment_stats float_tie_up
                         [sample_item "positive" (9 # 10) "high";
                          sample_item "negative" (3 # 10) "low";
                          sample_item "neutral" (5 # 10) "low"])
           + neutral (calculate_sentiment_stats float_tie_up
                        [sample_item "positive" (9 # 10) "high";
                         sample_item "negative" (3 # 10) "low";
                         sample_item "neutral" (5 # 10) "low"])
           - 100) <= 1 # 10)%Q.
Proof. vm_compute. intros H. apply H. reflexivity. Qed.

(** *** Trending topics *)

(** C2, at the failing input.  Without any record at all,
    [extract_trending_topics] still returns its three fixed topics. *)
Theorem trending_topics_of_no_records :
  extract_trending_topics [] [] =
  [ {| topic_name := "AI Technology"; topic_mentions := 156;
       topic_sentiment := "positive" |};
    {| topic_name := "Economic Policy"; topic_mentions := 89;
       topic_sentiment := "negative" |};
    {| topic_name := "Climate Change"; topic_mentions := 67;
       topic_sentiment := "neutral" |} ].
Proof. reflexivity. Qed.

(** The result does not depend on the records. *)
Lemma trending_topics_constant (reddit_data x_data : list item) :
  extract_trending_topics reddit_data x_data = extract_trending_topics [] [].
Proof. reflexivity. Qed.

(** *** Hot takes *)

Lemma is_str_eq (v : option string) (s : string) :
  is_str v s = true <-> v = Some s.
Proof.
  destruct v as [x|]; simpl.
  - rewrite String.eqb_eq. split; congruence.
  - split; discriminate.
Qed.

Lemma is_hot_spec (it : item) :
  is_hot it = true <->
  (8 # 10 < get (confidence it) 0)%Q /\ intensity it = Some "high".
Proof.
  unfold is_hot, Qlt_bool, Qlt.
  now rewrite andb_true_iff, Z.ltb_lt, is_str_eq.
Qed.

Lemma collect_hot_takes (data : list item) (acc : list hot_take) :
  fold_left (fun acc it =>
               if is_hot it then (acc ++ [to_hot_take it])%list else acc)
            data acc =
  (acc ++ List.map to_hot_take (List.filter is_hot data))%list.
Proof.
  revert acc. induction data as [|it data IH]; intros acc; cbn [fold_left].
  - cbn. now rewrite app_nil_r.
  - rewrite IH. cbn [List.filter]. destruct (is_hot it); [|reflexivity].
    cbn [List.map]. now rewrite <- app_assoc.
Qed.


(** A record qualifies as a hot take when its confidence is present and
    strictly greater than 0.8 and its intensity is "high". *)
Definition qualifies (it : item) : Prop :=
  match confidence it with
  | Some q => (8 # 10 < q)%Q
  | None => False
  end /\ intensity it = Some "high".

#[local] Instance qualifies_dec (it : item) : Decision (qualifies it).
Proof.
  unfold qualifies. destruct (confidence it) as [q|].
  - destruct (Qlt_le_dec (8 # 10) q) as [H | H].
    + destruct (decide (intensity it = Some "high")) as [Hi | Hi].
      * left. now split.
      * right. intros [_ Hi']. contradiction.
    + right. intros [H' _]. now apply Qle_not_lt in H.
  - right. intros [[] _].
Defined.

(** The condition of the loop is this notion. *)
Lemma is_hot_qualifies (it : item) : is_hot it = true <-> qualifies it.
Proof.
  rewrite is_hot_spec. unfold qualifies, get.
  destruct (confidence it) as [q|]; [reflexivity |].
  split; intros [H Hi]; [| contradiction].
  exfalso. revert H. unfold Qlt. cbn. lia.
Qed.

Lemma filter_is_hot (data : list item) :
  List.filter is_hot data = filter qualifies data.
Proof.
  induction data as [|it data IH]; [reflexivity |].
  cbn [List.filter]. rewrite filter_cons.
  destruct (decide (qualifies it)) as [Hq | Hq].
  - apply is_hot_qualifies in Hq. rewrite Hq. now rewrite IH.
  - destruct (is_hot it) eqn:E; [| exact IH].
    apply is_hot_qualifies in E. contradiction.
Qed.


(** Which records are listed: the qualifying ones, no others. *)
Lemma qualifying_records (data : list item) (it : item) :
  In it (filter qualifies data) <-> In it data /\ qualifies it.
Proof.
  rewrite <- filter_is_hot, filter_In, is_hot_qualifies. reflexivity.
Qed.

Example hot_takes_example :
  List.map ht_sentiment
    (identify_hot_takes
       [sample_item "positive" (9 # 10) "high";
        sample_item "negative" (8 # 10) "high";
        sample_item "neutral" (95 # 100) "low"]
       [sample_item "negative" (81 # 100) "high"]) =
  [Some "positive"; Some "negative"].
Proof. vm_compute. reflexivity. Qed.

(** *** Evidence files *)

Lemma append_inj_l (d a b : string) : d ++ a = d ++ b -> a = b.
Proof.
  induction d as [|c d IH]; cbn; [tauto |].
  intros H. injection H as H. now apply IH.
Qed.

Lemma save_csv_rows (data : list item) (written : list (list cell)) :
  fold_left (fun written it => (written ++ [csv_row it])%list) data written =
  (written ++ List.map csv_row data)%list.
Proof.
  revert written. induction data as [|it data IH]; intros written; cbn.
  - now rewrite app_nil_r.
  - rewrite IH. now rewrite <- app_assoc.
Qed.

Lemma save_csv_empty (filename : string) (fs : gmap string file) :
  save_csv [] filename fs = fs.
Proof. reflexivity. Qed.

Lemma save_csv_nonempty (data : list item) (filename : string)
    (fs : gmap string file) :
  (0 < length data)%nat ->
  save_csv data filename fs =
  <[filename := Csv (csv_header :: List.map csv_row data)]> fs.
Proof.
  destruct data as [|it data]; [simpl; lia |]. intros _.
  unfold save_csv. now rewrite save_csv_rows.
Qed.

(** [save_csv] touches no other file. *)
Lemma save_csv_other (data : list item) (filename other : string)
    (fs : gmap string file) :
  filename <> other -> save_csv data filename fs !! other = fs !! other.
Proof.
  intros Hne. destruct data as [|it data]; [reflexivity |].
  unfold save_csv. now rewrite lookup_insert_ne.
Qed.

Section Paths.

Variables stamp date : string.

Let self := init stamp date.

Lemma reddit_file_not_x_file : reddit_file self <> x_file self.
Proof.
  unfold reddit_file, x_file, path_join. intros H.
  apply append_inj_l in H. discriminate H.
Qed.

Lemma reddit_file_not_report_file : reddit_file self <> report_file self.
Proof.
  unfold reddit_file, report_file, path_join. intros H.
  apply append_inj_l in H. discriminate H.
Qed.

Lemma x_file_not_report_file : x_file self <> report_file self.
Proof.
  unfold x_file, report_file, path_join. intros H.
  apply append_inj_l in H. discriminate H.
Qed.

(** Every written path starts with the evidence directory, no listed name
    does. *)
Lemma written_path_not_listed_name (name : string) :
  In name (evidence_names self) ->
  reddit_file self <> name /\ x_file self <> name /\ report_file self <> name.
Proof.
  unfold evidence_names, reddit_file, x_file, report_file, path_join.
  cbn. intros [<- | [<- | [<- | []]]]; repeat split; discriminate.
Qed.

(** What [save_evidence_files] leaves in the file store. *)
Lemma save_evidence_files_store (reddit_data x_data : list item)
    (report_data : report) (fs : gmap string file) :
  fst (save_evidence_files self reddit_data x_data report_data fs) =
  <[report_file self := Json report_data]>
    (save_csv x_data (x_file self)
       (save_csv reddit_data (reddit_file self) fs)).
Proof. reflexivity. Qed.

End Paths.

(** C8.  For empty collections [save_csv] leaves the file store as it is,
    so [save_evidence_files] creates no CSV file, while it still writes
    the report, whose [total_posts_analyzed] is 0; for a non-empty
    collection [save_csv] writes the fixed header row followed by one row
    per record. *)
Theorem empty_evidence_writes_only_the_report
    (tie_up : Z -> Z -> bool) (stamp date filename : string)
    (data : list item) (fs : gmap string file) :
  save_csv [] filename fs = fs /\
  total_posts_analyzed
    (report_summary (generate_daily_report tie_up (init stamp date) [] []))
  = 0%Z /\
  fst (save_evidence_files (init stamp date) [] []
         (generate_daily_report tie_up (init stamp date) [] []) fs) =
  <[report_file (init stamp date) :=
      Json (generate_daily_report tie_up (init stamp date) [] [])]> fs /\
  (forall path, path <> report_file (init stamp date) ->
     fst (save_evidence_files (init stamp date) [] []
            (generate_daily_report tie_up (init stamp date) [] []) fs)
       !! path = fs !! path) /\
  ((0 < length data)%nat ->
   save_csv data filename fs !! filename =
     Some (Csv (csv_header :: List.map csv_row data)) /\
   length (csv_header :: List.map csv_row data) = S (length data)).
Proof.
  split; [reflexivity |]. split; [reflexivity |]. split; [reflexivity |].
  split.
  - intros path Hne. rewrite save_evidence_files_store.
    rewrite lookup_insert_ne by congruence. reflexivity.
  - intros Hlen. rewrite save_csv_nonempty by assumption.
    rewrite lookup_insert_eq. cbn [length]. now rewrite length_map.
Qed.

Lemma empty_evidence_writes_only_the_report_witness :
  (0 < length [sample_item "positive" (9 # 10) "high"])%nat /\
  save_csv [sample_item "positive" (9 # 10) "high"] "reddit.csv" ∅
    !! "reddit.csv" =
  Some (Csv [csv_header; csv_row (sample_item "positive" (9 # 10) "high")]).
Proof.
  split; [simpl; lia |].
  apply (empty_evidence_writes_only_the_report half_even
           "20240501_080000" "2024-05-01" "reddit.csv"
           [sample_item "positive" (9 # 10) "high"] ∅).
  simpl. lia.
Defined.

(** C10.  Whatever the two collections are, the report lists the same
    three file names; when a collection is empty, [save_evidence_files]
    writes neither the CSV path of that collection nor the listed name, so
    the report names a CSV file that is not written. *)
Theorem report_lists_fixed_evidence_files
    (tie_up : Z -> Z -> bool) (stamp date : string)
    (reddit_data x_data : list item) (report_data : report)
    (fs : gmap string file) :
  evidence_files
    (generate_daily_report tie_up (init stamp date) reddit_data x_data) =
  [ "reddit_analysis_" ++ stamp ++ ".csv";
    "x_analysis_" ++ stamp ++ ".csv";
    "daily_report_" ++ stamp ++ ".json" ] /\
  fst (save_evidence_files (init stamp date) [] x_data report_data fs)
    !! reddit_file (init stamp date) = fs !! reddit_file (init stamp date) /\
  fst (save_evidence_files (init stamp date) [] x_data report_data fs)
    !! ("reddit_analysis_" ++ stamp ++ ".csv") =
  fs !! ("reddit_analysis_" ++ stamp ++ ".csv") /\
  fst (save_evidence_files (init stamp date) reddit_data [] report_data fs)
    !! x_file (init stamp date) = fs !! x_file (init stamp date) /\
  fst (save_evidence_files (init stamp date) reddit_data [] report_data fs)
    !! ("x_analysis_" ++ stamp ++ ".csv") =
  fs !! ("x_analysis_" ++ stamp ++ ".csv").
Proof.
  pose proof (reddit_file_not_x_file stamp date) as Hrx.
  pose proof (reddit_file_not_report_file stamp date) as Hrr.
  pose proof (x_file_not_report_file stamp date) as Hxr.
  pose proof (written_path_not_listed_name stamp date
                ("reddit_analysis_" ++ stamp ++ ".csv")
                ltac:(cbn; tauto)) as (Hr1 & Hr2 & Hr3).
  pose proof (written_path_not_listed_name stamp date
                ("x_analysis_" ++ stamp ++ ".csv")
                ltac:(cbn; tauto)) as (Hx1 & Hx2 & Hx3).
  rewrite !save_evidence_files_store, !save_csv_empty.
  split; [reflexivity |].
  repeat split.
  - rewrite lookup_insert_ne by congruence.
    now rewrite save_csv_other by congruence.
  - rewrite lookup_insert_ne by congruence.
    now rewrite save_csv_other by congruence.
  - rewrite lookup_insert_ne by congruence.
    now rewrite save_csv_other by congruence.
  - rewrite lookup_insert_ne by congruence.
    now rewrite save_csv_other by congruence.
Qed.

(** From an empty store and no records at all, the only file afterwards is
    the report, although the report lists two CSV names besides. *)
Example evidence_of_an_empty_run :
  dom (fst (save_evidence_files (init "20240501_080000" "2024-05-01") [] []
              (generate_daily_report half_even
                 (init "20240501_080000" "2024-05-01") [] []) ∅)) =
  ({[ "evidence_2024-05-01/daily_report_20240501_080000.json" ]}
   : gset string).
Proof.
  rewrite save_evidence_files_store, !save_csv_empty.
  rewrite dom_insert_L, dom_empty_L. cbn. set_solver.
Qed.

End ReporterFacts.

(** ** Stripping *)

Module StripFacts.

Lemma take_drop_while (f : ascii -> bool) (s : str) :
  s = take_while f s ++ drop_while f s.
Proof.
  induction s as [|c s IH]; [reflexivity |].
  cbn. destruct (f c); [cbn; now rewrite <- IH | reflexivity].
Qed.

Lemma take_while_forallb (f : ascii -> bool) (s : str) :
  forallb f (take_while f s) = true.
Proof.
  induction s as [|c s IH]; [reflexivity |].
  cbn. destruct (f c) eqn:E; [cbn; now rewrite E | reflexivity].
Qed.

Lemma drop_while_head (f : ascii -> bool) (s : str) (c : ascii) (r : str) :
  drop_while f s = c :: r -> f c = false.
Proof.
  induction s as [|x s IH]; [discriminate |].
  cbn. destruct (f x) eqn:E; [exact IH |].
  intros H. injection H as -> _. exact E.
Qed.

Lemma drop_while_all (f : ascii -> bool) (s : str) :
  forallb f s = true -> drop_while f s = [].
Proof.
  induction s as [|x s IH]; [reflexivity |].
  cbn. destruct (f x); [exact IH | discriminate].
Qed.

Lemma drop_while_keep (f : ascii -> bool) (c : ascii) (s : str) :
  f c = false -> drop_while f (c :: s) = c :: s.
Proof. intros H. cbn. now rewrite H. Qed.

Lemma drop_while_idem (f : ascii -> bool) (s : str) :
  drop_while f (drop_while f s) = drop_while f s.
Proof.
  destruct (drop_while f s) as [|c r] eqn:E; [reflexivity |].
  apply drop_while_keep. eapply drop_while_head. exact E.
Qed.

(** [rstrip] cuts a run of whitespace off the end. *)
Lemma rstrip_split (s : str) :
  exists tail, s = rstrip s ++ tail /\ forallb is_space tail = true.
Proof.
  unfold rstrip. exists (rev (take_while is_space (rev s))). split.
  - rewrite <- rev_app_distr, <- take_drop_while. now rewrite rev_involutive.
  - rewrite forallb_forall. intros c Hc. apply in_rev in Hc.
    pose proof (take_while_forallb is_space (rev s)) as H.
    rewrite forallb_forall in H. now apply H.
Qed.

Lemma rstrip_last (s : str) (d : ascii) :
  rstrip s <> [] -> is_space (List.last (rstrip s) d) = false.
Proof.
  unfold rstrip. destruct (drop_while is_space (rev s)) as [|c r] eqn:E.
  - intros H. now contradiction H.
  - intros _. cbn [rev]. rewrite last_last.
    eapply drop_while_head. exact E.
Qed.

Lemma rstrip_keep (s : str) (d : ascii) :
  s <> [] -> is_space (List.last s d) = false -> rstrip s = s.
Proof.
  intros Hne Hl. unfold rstrip.
  destruct (rev s) as [|c r] eqn:E.
  - apply (f_equal (@rev ascii)) in E. rewrite rev_involutive in E.
    now subst.
  - assert (Hs : s = rev r ++ [c]).
    { apply (f_equal (@rev ascii)) in E. now rewrite rev_involutive in E. }
    rewrite Hs, last_last in Hl.
    rewrite drop_while_keep by assumption. now rewrite Hs.
Qed.

Lemma rstrip_head (s : str) (c : ascii) (r : str) :
  rstrip s = c :: r -> exists r', s = c :: r'.
Proof.
  intros H. destruct (rstrip_split s) as [tail [Hs _]].
  rewrite H in Hs. cbn in Hs. eauto.
Qed.

(** A stripped text is empty, or begins and ends with a character that is
    not whitespace. *)
Definition trimmed (s : str) : Prop :=
  match s with
  | [] => True
  | c :: _ => is_space c = false /\ is_space (List.last s c) = false
  end.

Lemma strip_trimmed (s : str) : trimmed (strip s).
Proof.
  unfold trimmed, strip.
  destruct (rstrip (lstrip s)) as [|c r] eqn:E; [exact I |].
  split.
  - apply rstrip_head in E as [r' E].
    unfold lstrip in E. eapply drop_while_head. exact E.
  - rewrite <- E. apply rstrip_last. rewrite E. discriminate.
Qed.

Lemma trimmed_strip (s : str) : trimmed s -> strip s = s.
Proof.
  unfold trimmed, strip, lstrip. destruct s as [|c r]; [reflexivity |].
  intros [H1 H2]. rewrite drop_while_keep by assumption.
  apply rstrip_keep with (d := c); [discriminate | assumption].
Qed.

Lemma strip_idem (s : str) : strip (strip s) = strip s.
Proof. apply trimmed_strip, strip_trimmed. Qed.

Lemma strip_all_space (s : str) : forallb is_space s = true -> strip s = [].
Proof.
  intros H. unfold strip, lstrip. now rewrite drop_while_all.
Qed.

Lemma strip_lstrip (s : str) : strip (lstrip s) = strip s.
Proof. unfold strip, lstrip. now rewrite drop_while_idem. Qed.

End StripFacts.

(** ** What the patterns capture *)

Module CaptureFacts.

Import Regex Analyzer TextFacts StripFacts.

Lemma greedy_top {A : Type} (try : nat -> option A) (lo n : nat) (r : A) :
  (lo <= n)%nat -> try n = Some r -> greedy try lo n = Some r.
Proof.
  intros Hlo Ht. destruct n; cbn [greedy].
  - destruct (Nat.ltb_spec 0 lo); [lia | now rewrite Ht].
  - destruct (Nat.ltb_spec (S n) lo); [lia | now rewrite Ht].
Qed.

Lemma greedy_none {A : Type} (try : nat -> option A) (lo n : nat) :
  (forall k, (k <= n)%nat -> try k = None) -> greedy try lo n = None.
Proof.
  induction n as [|n IH]; intros H; cbn [greedy].
  - destruct (0 <? lo)%nat; [reflexivity |]. now rewrite H.
  - destruct (S n <? lo)%nat; [reflexivity |].
    rewrite H by lia. apply IH. intros k Hk. apply H. lia.
Qed.

Lemma firstn_run (cls : ascii -> bool) (s : str) :
  firstn (run cls s) s = take_while cls s.
Proof.
  unfold run. induction s as [|c s IH]; [reflexivity |].
  cbn. destruct (cls c); [cbn; now rewrite IH | reflexivity].
Qed.

Lemma skipn_run (cls : ascii -> bool) (s : str) :
  skipn (run cls s) s = drop_while cls s.
Proof.
  unfold run. induction s as [|c s IH]; [reflexivity |].
  cbn. destruct (cls c); [cbn; now rewrite IH | reflexivity].
Qed.

(** The group alone takes the longest run of its class. *)
Lemma match_group (cls : ascii -> bool) (s : str) :
  match_here [Group cls] s =
  match take_while cls s with
  | [] => None
  | g => Some g
  end.
Proof.
  cbn [match_here]. rewrite <- firstn_run.
  destruct (run cls s) as [|n] eqn:E.
  - reflexivity.
  - rewrite (greedy_top _ 1 (S n) (firstn (S n) s)); [| lia | reflexivity].
    rewrite <- E, firstn_run. unfold run in E.
    destruct (take_while cls s); [discriminate | reflexivity].
Qed.

(** Before the end of the whitespace run the text goes on with
    whitespace. *)
Lemma skipn_in_run (cls : ascii -> bool) (s : str) (k : nat) :
  (k < run cls s)%nat ->
  exists c r, skipn k s = c :: r /\ cls c = true.
Proof.
  unfold run. revert k. induction s as [|x s IH]; intros k Hk.
  - cbn in Hk. lia.
  - cbn in Hk. destruct (cls x) eqn:E; cbn in Hk; [|lia].
    destruct k as [|k].
    + exists x, s. now split.
    + cbn. apply IH. lia.
Qed.

(** With a class that holds no whitespace nothing is gained by giving
    whitespace back: the capture is the longest run of the class after
    all the whitespace. *)
Lemma match_star (cls : ascii -> bool) (p : pattern) (s : str) :
  match_here (Star cls :: p) s =
  greedy (fun n => match_here p (skipn n s)) 0 (run cls s).
Proof. reflexivity. Qed.

Lemma match_spaces_group (cls : ascii -> bool) (s : str) :
  (forall c, is_space c = true -> cls c = false) ->
  match_here [Star is_space; Group cls] s =
  match take_while cls (drop_while is_space s) with
  | [] => None
  | g => Some g
  end.
Proof.
  intros Hdisj. rewrite match_star.
  destruct (take_while cls (drop_while is_space s)) as [|c g] eqn:E.
  - apply greedy_none. intros k Hk. rewrite match_group.
    destruct (Nat.eq_dec k (run is_space s)) as [-> | Hne].
    + now rewrite skipn_run, E.
    + destruct (skipn_in_run is_space s k ltac:(lia)) as [x [r [-> Hx]]].
      cbn. now rewrite (Hdisj x Hx).
  - apply greedy_top; [lia |].
    now rewrite match_group, skipn_run, E.
Qed.

(** With the class of every character, the capture is the text after the
    whitespace, or the last whitespace character when nothing follows. *)
Lemma forallb_skipn (f : ascii -> bool) (n : nat) (s : str) :
  forallb f s = true -> forallb f (skipn n s) = true.
Proof.
  revert s. induction n as [|n IH]; intros [|c s]; cbn; try tauto.
  rewrite andb_true_iff. intros [_ H]. now apply IH.
Qed.

Lemma forallb_firstn (f : ascii -> bool) (n : nat) (s : str) :
  forallb f s = true -> forallb f (firstn n s) = true.
Proof.
  revert s. induction n as [|n IH]; intros [|c s]; cbn; try tauto.
  rewrite !andb_true_iff. intros [H1 H]. split; [assumption | now apply IH].
Qed.

Lemma match_any (s : str) :
  match_here [Group (fun _ => true)] s =
  match s with
  | [] => None
  | _ => Some s
  end.
Proof.
  rewrite match_group.
  assert (H : take_while (fun _ => true) s = s).
  { induction s as [|x t IH]; [reflexivity | cbn; now rewrite IH]. }
  rewrite H. now destruct s.
Qed.

Lemma match_spaces_any (s g : str) :
  match_here [Star is_space; Group (fun _ => true)] s = Some g ->
  s <> [] /\ strip g = strip s.
Proof.
  intros H. split.
  - intros ->. cbn in H. discriminate H.
  - rewrite match_star in H.
    destruct (drop_while is_space s) as [|c r] eqn:E.
    + (* only whitespace: whatever is captured strips to nothing *)
      assert (Hs : forallb is_space s = true).
      { rewrite (take_drop_while is_space s), E, app_nil_r.
        apply take_while_forallb. }
      apply greedy_some in H as [k [_ H]].
      rewrite match_any in H.
      assert (Hg : g = skipn k s)
        by (destruct (skipn k s); [discriminate H | now injection H]).
      rewrite Hg, !strip_all_space;
        [reflexivity | assumption | now apply forallb_skipn].
    + rewrite (greedy_top _ 0 _ (c :: r)) in H; [| lia |].
      * injection H as <-. rewrite <- E. apply strip_lstrip.
      * now rewrite match_any, skipn_run, E.
Qed.

(** *** Labels *)

(** [s] begins with the label [cs], whatever the case of the letters. *)
Fixpoint label_at (cs s : str) : bool :=
  match cs, s with
  | [], _ => true
  | c :: cs', x :: s' => lit_matches c x && label_at cs' s'
  | _ :: _, [] => false
  end.

Lemma match_label (cs : str) (p : pattern) (s : str) :
  match_here (List.map Lit cs ++ p) s =
  if label_at cs s then match_here p (skipn (length cs) s) else None.
Proof.
  revert s. induction cs as [|c cs IH]; intros s; [reflexivity |].
  cbn [List.map app match_here label_at length].
  destruct s as [|x s]; [reflexivity |].
  destruct (lit_matches c x); [apply IH | reflexivity].
Qed.

(** Where the label matches, the text begins with as many characters as
    the label has, each matching its character of the label. *)
Lemma label_at_matches (cs s : str) :
  label_at cs s = true ->
  List.Forall2 (fun c x => lit_matches c x = true)
               cs (firstn (length cs) s) /\
  s = firstn (length cs) s ++ skipn (length cs) s.
Proof.
  revert s. induction cs as [|c cs IH]; intros s.
  - intros _. split; [constructor | reflexivity].
  - destruct s as [|x s]; [discriminate |].
    cbn [label_at]. rewrite andb_true_iff. intros [Hc H].
    apply IH in H as [H1 H2].
    cbn [length firstn skipn app]. split.
    + now constructor.
    + now rewrite <- H2.
Qed.

(** The leftmost match: where it starts, and that nothing matches
    before. *)
Lemma search_leftmost (p : pattern) (s g : str) :
  search p s = Some g ->
  exists before rest,
    s = before ++ rest /\ match_here p rest = Some g /\
    forall k, (k < length before)%nat -> match_here p (skipn k s) = None.
Proof.
  induction s as [|c s IH]; cbn [search].
  - destruct (match_here p []) eqn:E; [|discriminate].
    intros [= ->]. exists [], []. repeat split; [assumption |].
    cbn. intros k Hk. lia.
  - destruct (match_here p (c :: s)) eqn:E.
    + intros [= ->]. exists [], (c :: s). repeat split; [assumption |].
      cbn. intros k Hk. lia.
    + intros H. destruct (IH H) as [before [rest [-> [Hm Hk]]]].
      exists (c :: before), rest. repeat split; [assumption |].
      intros [|k] Hlt; [exact E |]. cbn. apply Hk. cbn in Hlt. lia.
Qed.



(** A labelled pattern whose class holds no whitespace captures the whole
    run of the class that follows the label and the whitespace. *)
Lemma labelled_capture (l : string) (cls : ascii -> bool) (s g : str) :
  (forall c, is_space c = true -> cls c = false) ->
  match_here (label l ++ [Star is_space; Group cls]) s = Some g ->
  exists lab ws after,
    s = lab ++ ws ++ g ++ after /\
    List.Forall2 (fun c x => lit_matches c x = true) (lit l) lab /\
    forallb is_space ws = true /\
    g <> [] /\ forallb cls g = true /\
    match after with
    | [] => True
    | c :: _ => cls c = false
    end.
Proof.
  intros Hdisj. unfold label. rewrite match_label.
  destruct (label_at (lit l) s) eqn:El; [|discriminate].
  apply label_at_matches in El as [Hlow Hs].
  set (rest := skipn (length (lit l)) s) in *.
  rewrite match_spaces_group by assumption.
  destruct (take_while cls (drop_while is_space rest)) as [|c g'] eqn:E;
    [discriminate |].
  intros [= <-].
  exists (firstn (length (lit l)) s), (take_while is_space rest),
         (drop_while cls (drop_while is_space rest)).
  split.
  { rewrite <- E, <- take_drop_while, <- take_drop_while. exact Hs. }
  split; [assumption |].
  split; [apply take_while_forallb |].
  split; [discriminate |].
  split; [rewrite <- E; apply take_while_forallb |].
  destruct (drop_while cls _) as [|x r] eqn:Ed; [exact I |].
  eapply drop_while_head. exact Ed.
Qed.

Lemma spaces_not_word (c : ascii) : is_space c = true -> is_word c = false.
Proof.
  destruct c as [[] [] [] [] [] [] [] []]; vm_compute;
    first [reflexivity | discriminate].
Qed.

Lemma spaces_not_conf (c : ascii) :
  is_space c = true -> is_conf_char c = false.
Proof.
  destruct c as [[] [] [] [] [] [] [] []]; vm_compute;
    first [reflexivity | discriminate].
Qed.

End CaptureFacts.

(** ** More on the response parser *)

Module ParserMore.

Import Regex Analyzer TextFacts StripFacts CaptureFacts ParserFacts.

(** X1.  When the sentiment pattern finds a match, the response reads:
    anything, ten characters that match the label [Sentiment:] one by one
    under [re.IGNORECASE], whitespace, the captured word, and a rest that
    does not begin with a word character.  The capture is a whole word. *)
Theorem sentiment_capture_is_whole_word (response g : str) :
  search sentiment_re response = Some g ->
  exists before lab ws after,
    response = before ++ lab ++ ws ++ g ++ after /\
    List.Forall2 (fun c x => lit_matches c x = true)
                 (lit "Sentiment:") lab /\
    forallb is_space ws = true /\
    g <> [] /\ forallb is_word g = true /\
    match after with
    | [] => True
    | c :: _ => is_word c = false
    end.
Proof.
  intros H. apply search_leftmost in H as [before [rest [-> [H _]]]].
  apply labelled_capture in H as [lab [ws [after H]]];
    [| exact spaces_not_word].
  destruct H as [-> H]. exists before, lab, ws, after.
  split; [reflexivity | exact H].
Qed.

Lemma sentiment_capture_is_whole_word_witness :
  search sentiment_re (lit "My view. SENTIMENT:  Mixed-up") =
    Some (lit "Mixed") /\
  exists before lab ws after,
    lit "My view. SENTIMENT:  Mixed-up" =
      before ++ lab ++ ws ++ lit "Mixed" ++ after /\
    List.Forall2 (fun c x => lit_matches c x = true)
                 (lit "Sentiment:") lab /\
    forallb is_space ws = true /\
    lit "Mixed" <> [] /\ forallb is_word (lit "Mixed") = true /\
    match after with
    | [] => True
    | c :: _ => is_word c = false
    end.
Proof.
  split; [vm_compute; reflexivity |].
  apply (sentiment_capture_is_whole_word
           (lit "My view. SENTIMENT:  Mixed-up") (lit "Mixed")).
  vm_compute. reflexivity.
Defined.

(** X2.  When the confidence pattern finds a match, the capture is the
    whole run of digits and dots that follows the characters matching the
    label [Confidence:] under [re.IGNORECASE] and whitespace. *)
Theorem confidence_capture_is_whole_run (response g : str) :
  search confidence_re response = Some g ->
  exists before lab ws after,
    response = before ++ lab ++ ws ++ g ++ after /\
    List.Forall2 (fun c x => lit_matches c x = true)
                 (lit "Confidence:") lab /\
    forallb is_space ws = true /\
    g <> [] /\ forallb is_conf_char g = true /\
    match after with
    | [] => True
    | c :: _ => is_conf_char c = false
    end.
Proof.
  intros H. apply search_leftmost in H as [before [rest [-> [H _]]]].
  apply labelled_capture in H as [lab [ws [after H]]];
    [| exact spaces_not_conf].
  destruct H as [-> H]. exists before, lab, ws, after.
  split; [reflexivity | exact H].
Qed.

Lemma confidence_capture_is_whole_run_witness :
  search confidence_re (lit "confidence: 0.85%") = Some (lit "0.85") /\
  exists before lab ws after,
    lit "confidence: 0.85%" = before ++ lab ++ ws ++ lit "0.85" ++ after /\
    List.Forall2 (fun c x => lit_matches c x = true)
                 (lit "Confidence:") lab /\
    forallb is_space ws = true /\
    lit "0.85" <> [] /\ forallb is_conf_char (lit "0.85") = true /\
    match after with
    | [] => True
    | c :: _ => is_conf_char c = false
    end.
Proof.
  split; [vm_compute; reflexivity |].
  apply (confidence_capture_is_whole_run
           (lit "confidence: 0.85%") (lit "0.85")).
  vm_compute. reflexivity.
Defined.

(** X3.  When the reasoning pattern finds a match, the characters that
    match the label [Reasoning:] under [re.IGNORECASE] are followed by at
    least one character, and the capture strips to the same text as
    everything that follows them, up to the end of the response. *)
Theorem reasoning_capture_runs_to_the_end (response g : str) :
  search reasoning_re response = Some g ->
  exists before lab rest,
    response = before ++ lab ++ rest /\
    List.Forall2 (fun c x => lit_matches c x = true)
                 (lit "Reasoning:") lab /\
    rest <> [] /\
    strip g = strip rest.
Proof.
  intros H. apply search_leftmost in H as [before [tail [-> [H _]]]].
  unfold reasoning_re, label in H. rewrite match_label in H.
  destruct (label_at (lit "Reasoning:") tail) eqn:El; [|discriminate].
  apply label_at_matches in El as [Hlow Hs].
  apply match_spaces_any in H as [Hne Hg].
  exists before, (firstn (length (lit "Reasoning:")) tail),
         (skipn (length (lit "Reasoning:")) tail).
  repeat split; try assumption. now rewrite <- Hs.
Qed.

Lemma reasoning_capture_runs_to_the_end_witness :
  search reasoning_re (lit "reasoning:   ") = Some (lit " ") /\
  exists before lab rest,
    lit "reasoning:   " = before ++ lab ++ rest /\
    List.Forall2 (fun c x => lit_matches c x = true)
                 (lit "Reasoning:") lab /\
    rest <> [] /\
    strip (lit " ") = strip rest.
Proof.
  split; [vm_compute; reflexivity |].
  apply (reasoning_capture_runs_to_the_end (lit "reasoning:   ") (lit " ")).
  vm_compute. reflexivity.
Defined.

Lemma parsed_reasoning_cases (response : str) :
  parsed_reasoning response = lit "Unable to parse response" \/
  exists g, search reasoning_re response = Some g /\
            parsed_reasoning response = slice_to 200 (strip g).
Proof.
  unfold parsed_reasoning, parse_sentiment_response, try_block.
  unfold and_then, extract_sentiment, extract_confidence, extract_reasoning.
  destruct (search sentiment_re response);
    destruct (search confidence_re response) as [c|];
    try destruct (py_float c);
    destruct (search reasoning_re response) as [g|]; cbn;
    first [ now left | right; exists g; now split ].
Qed.

(** X4.  The reasoning returned by the parser has at most 200 characters
    and does not begin with whitespace. *)
Theorem reasoning_is_bounded_and_left_trimmed (response : str) :
  (length (parsed_reasoning response) <= 200)%nat /\
  match parsed_reasoning response with
  | [] => True
  | c :: _ => is_space c = false
  end.
Proof.
  destruct (parsed_reasoning_cases response) as [-> | [g [_ ->]]].
  - split; [vm_compute; lia | reflexivity].
  - unfold slice_to. split; [apply firstn_le_length |].
    pose proof (strip_trimmed g) as Ht. unfold trimmed in Ht.
    destruct (strip g) as [|c r]; [exact I |]. cbn. tauto.
Qed.

Lemma lower_char_idem (c : ascii) : lower_char (lower_char c) = lower_char c.
Proof. destruct c as [[] [] [] [] [] [] [] []]; reflexivity. Qed.

Lemma lower_idem (s : str) : lower (lower s) = lower s.
Proof.
  unfold lower. rewrite List.map_map. apply List.map_ext.
  intros c. apply lower_char_idem.
Qed.

Lemma parsed_sentiment_cases (response : str) :
  parsed_sentiment response = lit "neutral" \/
  exists g, search sentiment_re response = Some g /\
            parsed_sentiment response = lower g.
Proof.
  unfold parsed_sentiment, parse_sentiment_response, try_block.
  unfold and_then, extract_sentiment, extract_confidence, extract_reasoning.
  destruct (search sentiment_re response) as [g|];
    destruct (search confidence_re response) as [c|];
    try destruct (py_float c);
    destruct (search reasoning_re response); cbn;
    first [ now left | right; exists g; now split ].
Qed.

(** X5.  The sentiment returned by the parser is never empty and is in
    lower case: lower-casing it again changes nothing. *)
Theorem sentiment_is_lower_case (response : str) :
  parsed_sentiment response <> [] /\
  lower (parsed_sentiment response) = parsed_sentiment response.
Proof.
  destruct (parsed_sentiment_cases response) as [-> | [g [Hs ->]]].
  - split; [discriminate | vm_compute; reflexivity].
  - destruct (search_labelled_group "Sentiment:" is_word response g Hs)
      as [Hne _].
    split.
    + destruct g; [now contradiction Hne | discriminate].
    + apply lower_idem.
Qed.

End ParserMore.

(** ** A reply in the requested format *)

Module FormatFacts.

Import Regex Analyzer TextFacts StripFacts CaptureFacts ParserFacts.









Lemma take_while_app_stop (f : ascii -> bool) (u : str) (x : ascii)
    (rest : str) :
  forallb f u = true -> f x = false -> take_while f (u ++ x :: rest) = u.
Proof.
  intros Hu Hx. induction u as [|y u IH]; cbn.
  - now rewrite Hx.
  - cbn in Hu. apply andb_true_iff in Hu as [Hy Hu].
    now rewrite Hy, IH.
Qed.








Lemma strip_after_space (r : str) : strip (" "%char :: r) = strip r.
Proof. reflexivity. Qed.

Section Formatted.

Variables w d r : str.

Hypothesis w_nonempty : w <> [].
Hypothesis w_word : forallb is_word w = true.
Hypothesis d_nonempty : d <> [].
Hypothesis d_conf : forallb is_conf_char d = true.




End Formatted.



(** X7.  When the captured confidence text is not a decimal numeral, the
    parser keeps the sentiment it has extracted and returns the default
    confidence and the default reasoning, whatever follows a [Reasoning:]
    label. *)
Theorem parse_with_malformed_confidence (response g : str) (e : exn) :
  search confidence_re response = Some g ->
  py_float g = inl e ->
  parse_sentiment_response response =
    (match search sentiment_re response with
     | Some s => lower s
     | None => lit "neutral"
     end,
     1 # 2,
     lit "Unable to parse response").
Proof.
  intros H He. unfold parse_sentiment_response, try_block.
  unfold and_then, extract_sentiment, extract_confidence, extract_reasoning.
  rewrite H.
  destruct (search sentiment_re response); rewrite He; reflexivity.
Qed.

Lemma parse_with_malformed_confidence_witness :
  parse_sentiment_response
    (lit "Sentiment: Negative Confidence: .. Reasoning: harsh") =
  (lit "negative", 1 # 2, lit "Unable to parse response").
Proof.
  apply (parse_with_malformed_confidence
           (lit "Sentiment: Negative Confidence: .. Reasoning: harsh")
           (lit "..")
           (ValueError (lit "could not convert string to float: '..'")));
    vm_compute; reflexivity.
Defined.

End FormatFacts.

(** ** More on platform detection *)

Module UrlFacts.

Import Analyzer TextFacts StripFacts CaptureFacts FormatFacts.

Lemma alpha_not_c0 (c : ascii) :
  is_ascii_alpha c = true -> is_c0_or_space c = false.
Proof.
  destruct c as [[] [] [] [] [] [] [] []]; vm_compute;
    first [reflexivity | discriminate].
Qed.

Lemma scheme_char_safe (c : ascii) :
  is_scheme_char c = true -> is_unsafe c = false /\ is_colon c = false.
Proof.
  destruct c as [[] [] [] [] [] [] [] []]; vm_compute;
    first [now split | discriminate].
Qed.

Lemma delim_safe (c : ascii) : is_delim c = true -> is_unsafe c = false.
Proof.
  destruct c as [[] [] [] [] [] [] [] []]; vm_compute;
    first [reflexivity | discriminate].
Qed.

Lemma filter_all (f : ascii -> bool) (s : str) :
  forallb f s = true -> List.filter f s = s.
Proof.
  induction s as [|c s IH]; [reflexivity |].
  cbn. destruct (f c); [|discriminate]. intros H. now rewrite IH.
Qed.

Lemma take_while_all (f : ascii -> bool) (s : str) :
  forallb f s = true -> take_while f s = s.
Proof.
  induction s as [|c s IH]; [reflexivity |].
  cbn. destruct (f c); [|discriminate]. intros H. now rewrite IH.
Qed.

(** A character of a plain host: an ASCII character that is no delimiter,
    no tab or line break and no square bracket. *)
Definition is_host_char (c : ascii) : bool :=
  between 0 127 c
  && negb (is_delim c) && negb (is_unsafe c)
  && negb (ascii_eqb "["%char c) && negb (ascii_eqb "]"%char c).

Lemma host_chars (host : str) :
  forallb is_host_char host = true ->
  forallb (fun c => negb (is_delim c)) host = true /\
  forallb (fun c => negb (is_unsafe c)) host = true /\
  has_char "["%char host = false /\ has_char "]"%char host = false.
Proof.
  unfold is_host_char, has_char.
  induction host as [|c host IH]; [now repeat split |].
  cbn. rewrite !andb_true_iff. intros [[[[[_ H1] H2] H3] H4] H].
  destruct (IH H) as (I1 & I2 & I3 & I4).
  rewrite H1, H2, I1, I2, I3, I4.
  apply negb_true_iff in H3, H4. rewrite H3, H4. now repeat split.
Qed.

Lemma split_scheme_built (c0 : ascii) (sch tail : str) :
  is_ascii_alpha c0 = true ->
  forallb is_scheme_char (c0 :: sch) = true ->
  split_scheme ((c0 :: sch) ++ ":"%char :: tail) = tail.
Proof.
  intros Hc0 Hsch. unfold split_scheme.
  assert (Hcol : forallb (fun c => negb (is_colon c)) (c0 :: sch) = true).
  { rewrite forallb_forall in Hsch |- *. intros c Hc.
    now rewrite (proj2 (scheme_char_safe c (Hsch c Hc))). }
  rewrite take_while_app_stop by (assumption || reflexivity).
  rewrite skipn_app, skipn_all, Nat.sub_diag. cbn [app skipn is_empty negb].
  now rewrite Hc0, Hsch.
Qed.

Lemma after_scheme_built (scheme host rest : str) :
  match scheme with
  | c :: _ => is_ascii_alpha c = true
  | [] => False
  end ->
  forallb is_scheme_char scheme = true ->
  forallb is_host_char host = true ->
  after_scheme (scheme ++ lit "://" ++ host ++ rest) =
  lit "//" ++ host ++ List.filter (fun c => negb (is_unsafe c)) rest.
Proof.
  intros Hhead Hsch Hhost.
  destruct (host_chars host Hhost) as (_ & Hu & _ & _).
  destruct scheme as [|c0 sch]; [contradiction |].
  assert (Hsafe : forallb (fun c => negb (is_unsafe c)) (c0 :: sch) = true).
  { rewrite forallb_forall in Hsch |- *. intros c Hc.
    now rewrite (proj1 (scheme_char_safe c (Hsch c Hc))). }
  unfold after_scheme.
  replace (drop_while is_c0_or_space
             ((c0 :: sch) ++ lit "://" ++ host ++ rest))
    with ((c0 :: sch) ++ lit "://" ++ host ++ rest)
    by (cbn [app drop_while]; now rewrite (alpha_not_c0 c0 Hhead)).
  rewrite !List.filter_app, (filter_all _ (c0 :: sch) Hsafe),
    (filter_all _ host Hu).
  change (List.filter (fun c => negb (is_unsafe c)) (lit "://"))
    with (lit "://").
  change ((c0 :: sch) ++ lit "://" ++ host ++
          List.filter (fun c => negb (is_unsafe c)) rest)
    with ((c0 :: sch) ++ ":"%char ::
          lit "//" ++ host ++
          List.filter (fun c => negb (is_unsafe c)) rest).
  now apply split_scheme_built.
Qed.

Lemma netloc_built (chk : str -> option str) (scheme host rest : str) :
  match scheme with
  | c :: _ => is_ascii_alpha c = true
  | [] => False
  end ->
  forallb is_scheme_char scheme = true ->
  forallb is_host_char host = true ->
  match rest with
  | c :: _ => is_delim c = true
  | [] => True
  end ->
  urlparse_netloc chk (scheme ++ lit "://" ++ host ++ rest) = inr host.
Proof.
  intros Hhead Hsch Hhost Hrest.
  destruct (host_chars host Hhost) as (Hd & _ & Hl & Hr).
  unfold urlparse_netloc. rewrite after_scheme_built by assumption.
  set (rest' := List.filter (fun c => negb (is_unsafe c)) rest).
  change (starts_with (lit "//") (lit "//" ++ host ++ rest')) with true.
  cbv iota zeta.
  assert (Hn : splitnetloc (lit "//" ++ host ++ rest') = host).
  { unfold splitnetloc.
    change (skipn 2 (lit "//" ++ host ++ rest')) with (host ++ rest').
    subst rest'. destruct rest as [|c r].
    - cbn [List.filter]. rewrite app_nil_r. now apply take_while_all.
    - cbn [List.filter]. rewrite (delim_safe c Hrest). cbn [negb].
      apply take_while_app_stop; [assumption |]. now rewrite Hrest. }
  rewrite Hn, Hl, Hr. reflexivity.
Qed.

(** X8.  For an ASCII host without delimiter, tab, line break or square
    bracket, the network location of [scheme://host] followed by a path, a
    query or a fragment is [host], and detection does not look at what
    follows the host. *)
Theorem detection_depends_on_host_only
    (chk : str -> option str) (scheme host rest : str) :
  match scheme with
  | c :: _ => is_ascii_alpha c = true
  | [] => False
  end ->
  forallb is_scheme_char scheme = true ->
  forallb is_host_char host = true ->
  match rest with
  | c :: _ => is_delim c = true
  | [] => True
  end ->
  urlparse_netloc chk (scheme ++ lit "://" ++ host ++ rest) = inr host /\
  detect_platform chk (scheme ++ lit "://" ++ host ++ rest) =
  detect_platform chk (scheme ++ lit "://" ++ host).
Proof.
  intros H1 H2 H3 H4.
  pose proof (netloc_built chk scheme host rest H1 H2 H3 H4) as Ha.
  pose proof (netloc_built chk scheme host [] H1 H2 H3 I) as Hb.
  rewrite app_nil_r in Hb.
  split; [assumption |]. unfold detect_platform. now rewrite Ha, Hb.
Qed.

Lemma detection_depends_on_host_only_witness :
  urlparse_netloc (fun _ => None) (lit "https://old.Reddit.com/r/all?x=1") =
    inr (lit "old.Reddit.com") /\
  detect_platform (fun _ => None) (lit "https://old.Reddit.com/r/all?x=1") =
  detect_platform (fun _ => None) (lit "https://old.Reddit.com").
Proof.
  apply (detection_depends_on_host_only (fun _ => None)
           (lit "https") (lit "old.Reddit.com") (lit "/r/all?x=1"));
    vm_compute; reflexivity.
Defined.

Lemma split_scheme_suffix (url : str) :
  exists pre, url = pre ++ split_scheme url.
Proof.
  unfold split_scheme.
  set (head := take_while (fun c => negb (is_colon c)) url).
  destruct (skipn (length head) url) as [|c rest] eqn:E;
    [now exists [] |].
  destruct url as [|c0 url']; [now exists [] |].
  destruct (_ && _); [| now exists []].
  exists (firstn (length head) (c0 :: url') ++ [c]).
  rewrite <- app_assoc. cbn [app]. rewrite <- E.
  now rewrite firstn_skipn.
Qed.

Lemma after_scheme_suffix (url : str) :
  forallb (fun c => negb (is_unsafe c)) url = true ->
  exists pre, url = pre ++ after_scheme url.
Proof.
  intros Hsafe. unfold after_scheme.
  set (u := drop_while is_c0_or_space url).
  assert (Hu : url = take_while is_c0_or_space url ++ u)
    by apply take_drop_while.
  assert (Hf : List.filter (fun c => negb (is_unsafe c)) u = u).
  { apply filter_all. rewrite Hu, forallb_app in Hsafe.
    now apply andb_true_iff in Hsafe as [_ Hsafe]. }
  rewrite Hf. destruct (split_scheme_suffix u) as [pre Hpre].
  exists (take_while is_c0_or_space url ++ pre).
  rewrite <- app_assoc, <- Hpre. exact Hu.
Qed.

(** X9.  A URL without tab or line break in which [//] does not occur has
    no network location: detection raises, and the message carries an
    empty host, whatever domain the text names. *)
Theorem url_without_double_slash_is_rejected
    (chk : str -> option str) (url : str) :
  forallb (fun c => negb (is_unsafe c)) url = true ->
  contains (lit "//") url = false ->
  detect_platform chk url = inl (ValueError (lit "Unsupported platform: ")).
Proof.
  intros Hsafe Hno. unfold detect_platform, urlparse_netloc.
  destruct (starts_with (lit "//") (after_scheme url)) eqn:E;
    [| reflexivity].
  apply starts_with_app in E as [rest E].
  destruct (after_scheme_suffix url Hsafe) as [pre Hpre].
  assert (Hc : contains (lit "//") url = true).
  { apply contains_Substring. exists pre, rest. now rewrite <- E. }
  congruence.
Qed.

Lemma url_without_double_slash_is_rejected_witness :
  detect_platform (fun _ => None) (lit "www.reddit.com/r/all/top") =
  inl (ValueError (lit "Unsupported platform: ")).
Proof.
  apply (url_without_double_slash_is_rejected
           (fun _ => None) (lit "www.reddit.com/r/all/top"));
    vm_compute; reflexivity.
Defined.

End UrlFacts.

(** ** More on the text filter *)

Module ScrapeFacts.

Import Analyzer StripFacts AnalyzerFacts.

Lemma filter_fixed {A : Type} (p : A -> bool) (l : list A) :
  List.filter p (List.filter p l) = List.filter p l.
Proof.
  induction l as [|x l IH]; [reflexivity |].
  cbn. destruct (p x) eqn:E; [cbn; now rewrite E, IH | exact IH].
Qed.

(** X10.  Every text the scrapers return is stripped (it neither begins
    nor ends with whitespace) and has more than 10 characters. *)
Theorem scraped_texts_are_trimmed (captured : list str) :
  List.Forall (fun text => trimmed text /\ strip text = text /\
                           (10 < length text)%nat)
              (scrape_reddit_comments captured) /\
  List.Forall (fun text => trimmed text /\ strip text = text /\
                           (10 < length text)%nat)
              (scrape_x_replies captured).
Proof.
  unfold scrape_reddit_comments, scrape_x_replies.
  rewrite collect_texts_filter.
  assert (H : List.Forall
                (fun text => trimmed text /\ strip text = text /\
                             (10 < length text)%nat)
                (List.filter (fun text => (10 <? length text)%nat)
                             (List.map strip captured))).
  { apply List.Forall_forall. intros text Hin.
    apply filter_In in Hin as [Hin Hlen].
    apply in_map_iff in Hin as [c [<- _]].
    split; [apply strip_trimmed |].
    split; [apply strip_idem | now apply Nat.ltb_lt]. }
  now split.
Qed.

(** X11.  Filtering is idempotent: scraping the texts that a scraper has
    returned gives them back unchanged. *)
Theorem scraping_is_idempotent (captured : list str) :
  scrape_reddit_comments (scrape_reddit_comments captured) =
    scrape_reddit_comments captured /\
  scrape_x_replies (scrape_x_replies captured) = scrape_x_replies captured.
Proof.
  unfold scrape_reddit_comments, scrape_x_replies.
  rewrite !collect_texts_filter.
  assert (Hs : List.map strip
                 (List.filter (fun text => (10 <? length text)%nat)
                              (List.map strip captured)) =
               List.filter (fun text => (10 <? length text)%nat)
                           (List.map strip captured)).
  { induction captured as [|c l IH]; [reflexivity |].
    cbn [List.map List.filter].
    destruct (10 <? length (strip c))%nat; [|exact IH].
    cbn [List.map]. now rewrite strip_idem, IH. }
  rewrite Hs, filter_fixed. now split.
Qed.

(** X12.  The filter works text by text: the result for two captures in a
    row is the result for the first followed by the result for the
    second, and it is never longer than the capture. *)
Theorem scraping_distributes (first second : list str) :
  scrape_reddit_comments (first ++ second) =
    scrape_reddit_comments first ++ scrape_reddit_comments second /\
  (length (scrape_reddit_comments first) <= length first)%nat.
Proof.
  unfold scrape_reddit_comments. rewrite !collect_texts_filter.
  split.
  - now rewrite List.map_app, List.filter_app.
  - etransitivity; [apply List.filter_length_le |]. now rewrite length_map.
Qed.

End ScrapeFacts.

(** ** The analysis run *)

Module PipelineFacts.

Import Analyzer Pipeline TextFacts ParserFacts ParserMore.

Lemma str_eqb_eq (a b : str) : str_eqb a b = true <-> a = b.
Proof.
  revert b. induction a as [|x a IH]; intros [|y b]; cbn;
    try (split; [discriminate | discriminate]); [now split |].
  rewrite andb_true_iff, ascii_eqb_eq, IH. split.
  - now intros [-> ->].
  - intros H. injection H as -> ->. now split.
Qed.

(** Detection returns one of the two platform names. *)
Lemma detect_platform_values (chk : str -> option str) (url p : str) :
  detect_platform chk url = inr p -> p = lit "reddit" \/ p = lit "x".
Proof.
  unfold detect_platform. destruct (urlparse_netloc chk url); [discriminate |].
  destruct (contains _ _); [intros [= <-]; now left |].
  destruct (orb _ _); [intros [= <-]; now right | discriminate].
Qed.

Section Run.

Variable now : nat -> str.
Variable chk : str -> option str.
Variables reddit_elements x_elements : str -> str + list str.
Variable perplexity : nat -> str -> str + list str.
Variable self : analyzer.


(** The texts that a scraper hands back; none when the page load raises. *)
Definition scraped_texts (elements : str -> str + list str)
    (collect : list str -> list str) (url : str) : list str :=
  match elements url with
  | inl _ => []
  | inr captured => collect captured
  end.

(** The texts that [analyze_url] analyses for a detected platform. *)
Definition texts_of (platform url : str) : list str :=
  if str_eqb platform (lit "reddit")
  then scraped_texts reddit_elements scrape_reddit_comments url
  else scraped_texts x_elements scrape_x_replies url.

(** The exception of the page load for a detected platform, if any. *)
Definition page_error (platform url : str) : option str :=
  match (if str_eqb platform (lit "reddit")
         then reddit_elements url else x_elements url) with
  | inl msg => Some msg
  | inr _ => None
  end.

Fixpoint logged_rows (i tick : nat) (platform url : str) (texts : list str)
  : list (list log_cell) :=
  match texts with
  | [] => []
  | text :: rest =>
      (let '(sentiment, confidence, reasoning) :=
         analyze_sentiment_with_perplexity perplexity i text in
       log_row (now tick) platform url text sentiment confidence reasoning)
      :: logged_rows (S i) (S tick) platform url rest
  end.

Lemma logged_rows_length (i tick : nat) (platform url : str)
    (texts : list str) :
  length (logged_rows i tick platform url texts) = length texts.
Proof.
  revert i tick. induction texts as [|t texts IH]; intros i tick;
    [reflexivity |].
  cbn. now rewrite IH.
Qed.


Lemma logged_rows_width (i tick : nat) (platform url : str)
    (texts : list str) :
  List.Forall (fun row => length row = length log_header)
              (logged_rows i tick platform url texts).
Proof.
  revert i tick. induction texts as [|t texts IH]; intros i tick; cbn.
  - constructor.
  - constructor; [| apply IH].
    now destruct (analyze_sentiment_with_perplexity perplexity i t)
      as [[s c] r].
Qed.

(** What the loop of [analyze_url] does to the world. *)
Lemma analyze_texts_log (texts : list str) (i : nat) (platform url : str)
    (w : world) :
  default [] (files (analyze_texts now perplexity self i platform url texts w)
              !! csv_filename self) =
    default [] (files w !! csv_filename self)
    ++ logged_rows i (ticks w) platform url texts /\
  ticks (analyze_texts now perplexity self i platform url texts w) =
    (ticks w + length texts)%nat /\
  forall other, other <> csv_filename self ->
    files (analyze_texts now perplexity self i platform url texts w) !! other =
    files w !! other.
Proof.
  revert i w. induction texts as [|t texts IH]; intros i w.
  - cbn. rewrite app_nil_r. repeat split. lia.
  - cbn [analyze_texts logged_rows length].
    destruct (analyze_sentiment_with_perplexity perplexity i t)
      as [[s c] r].
    destruct (IH (S i) (log_to_csv now self platform url t s c r w))
      as (Hf & Ht & Ho).
    rewrite Hf, Ht. cbn [log_to_csv files ticks].
    rewrite lookup_insert_eq.
    split; [unfold default; cbn [from_option id]; now rewrite <- app_assoc |].
    split; [lia |].
    intros other Hne. rewrite (Ho other Hne). cbn [log_to_csv files].
    apply lookup_insert_ne. congruence.
Qed.

End Run.

(** X13.  Whatever the browser does, the analysis of one text returns a
    non-empty sentiment and a confidence that is not negative; when the
    browser raises or shows no response element, the result is "neutral"
    with confidence 0.5. *)
Theorem analysis_result_is_well_formed
    (perplexity : nat -> str -> str + list str) (i : nat) (text : str) :
  fst (fst (analyze_sentiment_with_perplexity perplexity i text)) <> [] /\
  (0 <= snd (fst (analyze_sentiment_with_perplexity perplexity i text)))%Q /\
  match perplexity i (build_prompt text) with
  | inr (_ :: _) => True
  | _ =>
      fst (analyze_sentiment_with_perplexity perplexity i text) =
      (lit "neutral", 1 # 2)
  end.
Proof.
  unfold analyze_sentiment_with_perplexity.
  destruct (perplexity i (build_prompt text)) as [msg | [|e els]];
    cbn [fst snd].
  - split; [discriminate |]. split; [| reflexivity].
    unfold Qle. cbn. lia.
  - split; [discriminate |]. split; [| reflexivity].
    unfold Qle. cbn. lia.
  - set (response := List.last els e).
    change (fst (fst (parse_sentiment_response response)))
      with (parsed_sentiment response).
    change (snd (fst (parse_sentiment_response response)))
      with (parsed_confidence response).
    split; [| split; [| exact I]].
    + destruct (parsed_sentiment_cases response) as [-> | [g [Hs ->]]];
        [discriminate |].
      destruct (search_labelled_group "Sentiment:" is_word response g Hs)
        as [Hne _].
      destruct g; [now contradiction Hne | discriminate].
    + destruct (parsed_confidence_cases response) as [-> | [g [_ H]]].
      * unfold Qle. cbn. lia.
      * now apply py_float_nonneg in H.
Qed.

(** How a run goes, by the outcome of detection and of the page load. *)
Lemma analyze_url_run
    (now : nat -> str) (chk : str -> option str)
    (reddit_elements x_elements : str -> str + list str)
    (perplexity : nat -> str -> str + list str) (self : analyzer)
    (url : str) (w : world) :
  match detect_platform chk url with
  | inl e =>
      analyze_url now chk reddit_elements x_elements perplexity self url w =
      (Some (FromAnalyzer e), w)
  | inr platform =>
      analyze_url now chk reddit_elements x_elements perplexity self url w =
      match page_error reddit_elements x_elements platform url with
      | Some msg => (Some (FromBrowser msg), w)
      | None =>
          (None,
           analyze_texts now perplexity self 0 platform url
             (texts_of reddit_elements x_elements platform url) w)
      end
  end.
Proof.
  unfold analyze_url, texts_of, page_error, scrape_page, scraped_texts.
  destruct (detect_platform chk url) as [e | p] eqn:E; [reflexivity |].
  apply detect_platform_values in E as [-> | ->]; cbn [str_eqb lit].
  - change (str_eqb (lit "reddit") (lit "reddit")) with true. cbv iota.
    now destruct (reddit_elements url).
  - change (str_eqb (lit "x") (lit "reddit")) with false.
    change (str_eqb (lit "x") (lit "x")) with true. cbv iota.
    now destruct (x_elements url).
Qed.

(** The world after a run on a URL of a detected platform: the loop over
    the scraped texts, which are none when the page load raises. *)
Lemma analyze_url_world
    (now : nat -> str) (chk : str -> option str)
    (reddit_elements x_elements : str -> str + list str)
    (perplexity : nat -> str -> str + list str) (self : analyzer)
    (url platform : str) (w : world) :
  detect_platform chk url = inr platform ->
  snd (analyze_url now chk reddit_elements x_elements perplexity self url w) =
  analyze_texts now perplexity self 0 platform url
    (texts_of reddit_elements x_elements platform url) w.
Proof.
  intros Hd.
  pose proof (analyze_url_run now chk reddit_elements x_elements perplexity
                self url w) as Hrun.
  rewrite Hd in Hrun. rewrite Hrun.
  unfold page_error, texts_of, scraped_texts.
  destruct (str_eqb platform (lit "reddit"));
    [destruct (reddit_elements url) | destruct (x_elements url)];
    reflexivity.
Qed.


Definition sample_world : world := {| files := ∅; ticks := 0 |}.


Definition sample_browser (i : nat) (prompt : str) : str + list str :=
  inr [lines ["Sentiment: Positive"; "Confidence: 0.9"; "Reasoning: fond"]].


(** A browser that fails to load any page. *)
Definition failing_page (url : str) : str + list str :=
  inl (lit "net::ERR_NAME_NOT_RESOLVED").

(** A run on a URL whose page the browser cannot load. *)
Example analyze_url_page_load_fails :
  analyze_url (fun _ => lit "2024-05-01T08:00:00") (fun _ => None)
    failing_page failing_page sample_browser
    (new_analyzer "20240501_080000")
    (lit "https://www.reddit.com/r/all/") sample_world =
  (Some (FromBrowser (lit "net::ERR_NAME_NOT_RESOLVED")), sample_world).
Proof. vm_compute. reflexivity. Qed.



(** X16.  After [init_csv], a run on any URL leaves a CSV file whose first
    row is the header and whose other rows, one per clock reading of the
    run, have as many cells as the header. *)
Theorem log_starts_with_header
    (now : nat -> str) (chk : str -> option str)
    (reddit_elements x_elements : str -> str + list str)
    (perplexity : nat -> str -> str + list str) (self : analyzer)
    (url : str) (w : world) :
  exists rows,
    files (snd (analyze_url now chk reddit_elements x_elements perplexity
                            self url (init_csv self w)))
      !! csv_filename self = Some (log_header :: rows) /\
    List.Forall (fun row => length row = length log_header) rows /\
    ticks (snd (analyze_url now chk reddit_elements x_elements perplexity
                            self url (init_csv self w))) =
      (ticks w + length rows)%nat.
Proof.
  pose proof (analyze_url_run now chk reddit_elements x_elements perplexity
                self url (init_csv self w)) as Hrun.
  destruct (detect_platform chk url) as [e | p] eqn:Hd.
  - rewrite Hrun; cbn [snd].
    exists []. cbn [init_csv files ticks length].
    rewrite lookup_insert_eq. split; [reflexivity |].
    split; [constructor | lia].
  - clear Hrun.
    rewrite (analyze_url_world now chk reddit_elements x_elements perplexity
               self url p (init_csv self w) Hd).
    set (texts := texts_of reddit_elements x_elements p url).
    destruct (analyze_texts_log now perplexity self texts 0 p url
                                (init_csv self w)) as (Hf & Ht & _).
    exists (logged_rows now perplexity 0 (ticks w) p url texts).
    cbn [init_csv files ticks] in Hf, Ht. rewrite lookup_insert_eq in Hf.
    split; [| split].
    + revert Hf. unfold default. cbn [from_option id app].
      destruct (files _ !! csv_filename self) as [rows|];
        cbn [from_option id]; [now intros -> | discriminate].
    + apply logged_rows_width.
    + now rewrite logged_rows_length.
Qed.

(** X17.  The prompt embeds at most the first 300 characters of the text:
    texts that agree on them give the same prompt, and the prompt is 251
    characters longer than the embedded part. *)
Theorem prompt_embeds_at_most_300_characters (text : str) :
  build_prompt (slice_to 300 text) = build_prompt text /\
  length (build_prompt text) = (251 + Nat.min 300 (length text))%nat.
Proof.
  unfold build_prompt, slice_to. split.
  - now rewrite firstn_firstn, Nat.min_id.
  - rewrite !length_app, length_firstn. cbn. lia.
Qed.

End PipelineFacts.

(** ** More on the daily reporter *)

Module ReportFacts.

Import Reporter ReporterFacts.

Local Open Scope string_scope.

(** *** Percentages *)

Lemma percentage_range (tie_up : Z -> Z -> bool) (count total : Z) :
  (0 < total)%Z -> (0 <= count <= total)%Z ->
  (0 <= percentage tie_up count total <= 100)%Q.
Proof.
  intros Ht Hc. now apply percentage_close.
Qed.

(** X18.  No percentage of [calculate_sentiment_stats] is negative or above
    100, whatever the records. *)
Theorem percentages_are_between_0_and_100
    (tie_up : Z -> Z -> bool) (data : list item) :
  (0 <= positive (calculate_sentiment_stats tie_up data) <= 100)%Q /\
  (0 <= negative (calculate_sentiment_stats tie_up data) <= 100)%Q /\
  (0 <= neutral (calculate_sentiment_stats tie_up data) <= 100)%Q.
Proof.
  destruct data as [|it data].
  - cbn. unfold Qle. cbn. lia.
  - cbn [calculate_sentiment_stats positive negative neutral].
    pose proof (counts_partition (it :: data)) as Hp.
    pose proof (count_sentiment_nonneg "positive" (it :: data)) as H1.
    pose proof (count_sentiment_nonneg "negative" (it :: data)) as H2.
    assert (Ht : (0 < len (it :: data))%Z)
      by (unfold len; cbn [length]; lia).
    repeat split; apply percentage_range; try assumption; lia.
Qed.

(** X19.  Whatever is neither "positive" nor "negative" counts as neutral:
    a record with another label, with a label in other letter case, or
    with no label.  The neutral percentage is the rounded share of these
    records. *)
Theorem neutral_is_everything_else
    (tie_up : Z -> Z -> bool) (data : list item) :
  (0 < length data)%nat ->
  neutral (calculate_sentiment_stats tie_up data) =
  percentage tie_up (Z.of_nat (length (List.filter is_other data)))
             (Z.of_nat (length data)).
Proof.
  intros Hlen. destruct data as [|it data]; [cbn in Hlen; lia |].
  cbn [calculate_sentiment_stats neutral].
  pose proof (counts_partition (it :: data)) as Hp.
  f_equal. unfold len in *. lia.
Qed.

Lemma neutral_is_everything_else_witness :
  (0 < length [sample_item "Positive" (9 # 10) "high";
               sample_item "mixed" (3 # 10) "low"])%nat /\
  neutral (calculate_sentiment_stats half_even
             [sample_item "Positive" (9 # 10) "high";
              sample_item "mixed" (3 # 10) "low"]) = 100%Q.
Proof.
  split; [cbn; lia |].
  rewrite (neutral_is_everything_else half_even
             [sample_item "Positive" (9 # 10) "high";
              sample_item "mixed" (3 # 10) "low"]);
    [vm_compute; reflexivity | cbn; lia].
Defined.

Lemma count_sentiment_perm (label : string) (data data' : list item) :
  Permutation data data' ->
  count_sentiment label data = count_sentiment label data'.
Proof.
  intros H. rewrite !count_sentiment_filter. f_equal.
  induction H as [| it l l' _ IH | a b l | l l' l'' _ IH1 _ IH2].
  - reflexivity.
  - cbn. destruct (has_label label it); cbn; now rewrite IH.
  - cbn. destruct (has_label label a), (has_label label b); reflexivity.
  - now rewrite IH1.
Qed.

Lemma stats_perm (tie_up : Z -> Z -> bool) (data data' : list item) :
  Permutation data data' ->
  calculate_sentiment_stats tie_up data =
  calculate_sentiment_stats tie_up data'.
Proof.
  intros H.
  pose proof (Permutation_length H) as Hl.
  pose proof (count_sentiment_perm "positive" _ _ H) as Hp.
  pose proof (count_sentiment_perm "negative" _ _ H) as Hn.
  destruct data as [|a l], data' as [|b l']; try discriminate Hl;
    [reflexivity |].
  cbn [calculate_sentiment_stats]. unfold len. now rewrite Hl, Hp, Hn.
Qed.

(** X20.  The statistics do not depend on the order of the records. *)
Theorem stats_ignore_record_order
    (tie_up : Z -> Z -> bool) (data data' : list item) :
  Permutation data data' ->
  calculate_sentiment_stats tie_up data =
  calculate_sentiment_stats tie_up data'.
Proof. apply stats_perm. Qed.

Lemma stats_ignore_record_order_witness :
  calculate_sentiment_stats half_even
    [sample_item "positive" (9 # 10) "high";
     sample_item "negative" (3 # 10) "low"] =
  calculate_sentiment_stats half_even
    [sample_item "negative" (3 # 10) "low";
     sample_item "positive" (9 # 10) "high"].
Proof.
  apply (stats_ignore_record_order half_even). apply perm_swap.
Defined.

Lemma stats_count (tie_up : Z -> Z -> bool) (data : list item) :
  count (calculate_sentiment_stats tie_up data) = len data.
Proof. now destruct data. Qed.

(** X21.  The overall statistics are the same whichever platform comes
    first, and their count is the sum of the two platform counts. *)
Theorem overall_stats_combine_platforms
    (tie_up : Z -> Z -> bool) (reddit_data x_data : list item) :
  calculate_overall_stats tie_up reddit_data x_data =
    calculate_overall_stats tie_up x_data reddit_data /\
  count (calculate_overall_stats tie_up reddit_data x_data) =
    (count (calculate_sentiment_stats tie_up reddit_data)
     + count (calculate_sentiment_stats tie_up x_data))%Z /\
  calculate_overall_stats tie_up reddit_data [] =
    calculate_sentiment_stats tie_up reddit_data.
Proof.
  unfold calculate_overall_stats. split; [| split].
  - apply stats_perm, Permutation_app_comm.
  - rewrite !stats_count. unfold len. rewrite length_app. lia.
  - now rewrite app_nil_r.
Qed.

(** *** The report *)

(** X22.  The numbers of a report agree with each other: the total is the
    sum of the two platform sizes, each statistics block counts the
    records it was computed from, the overall block counts the total, and
    there are at most 5 hot takes. *)
Theorem report_numbers_are_consistent
    (tie_up : Z -> Z -> bool) (self : reporter)
    (reddit_data x_data : list item) :
  total_posts_analyzed
    (report_summary (generate_daily_report tie_up self reddit_data x_data)) =
  (reddit_posts
     (report_summary (generate_daily_report tie_up self reddit_data x_data))
   + x_posts
       (report_summary
          (generate_daily_report tie_up self reddit_data x_data)))%Z /\
  count (bd_reddit (sentiment_breakdown
           (generate_daily_report tie_up self reddit_data x_data))) =
  reddit_posts
    (report_summary (generate_daily_report tie_up self reddit_data x_data)) /\
  count (bd_x (sentiment_breakdown
           (generate_daily_report tie_up self reddit_data x_data))) =
  x_posts
    (report_summary (generate_daily_report tie_up self reddit_data x_data)) /\
  count (bd_overall (sentiment_breakdown
           (generate_daily_report tie_up self reddit_data x_data))) =
  total_posts_analyzed
    (report_summary (generate_daily_report tie_up self reddit_data x_data)) /\
  (length (hot_takes (generate_daily_report tie_up self reddit_data x_data))
   <= 5)%nat.
Proof.
  cbn [generate_daily_report report_summary sentiment_breakdown hot_takes
       total_posts_analyzed reddit_posts x_posts bd_reddit bd_x bd_overall].
  unfold calculate_overall_stats. rewrite !stats_count.
  split; [reflexivity |]. split; [reflexivity |]. split; [reflexivity |].
  split.
  - unfold len. rewrite length_app. lia.
  - unfold identify_hot_takes. apply firstn_le_length.
Qed.

(** *** Hot takes *)

Lemma hot_takes_filter (reddit_data x_data : list item) :
  identify_hot_takes reddit_data x_data =
  List.map to_hot_take
    (firstn 5 (List.filter is_hot reddit_data ++ List.filter is_hot x_data)).
Proof.
  unfold identify_hot_takes. rewrite collect_hot_takes. cbn [app].
  now rewrite List.filter_app, firstn_map.
Qed.

(** X23.  Reddit comes first among the hot takes: they are made from the
    qualifying reddit records followed by the qualifying x records, cut to
    5, so that with five or more qualifying reddit records no x record is
    shown. *)
Theorem hot_takes_prefer_reddit (reddit_data x_data : list item) :
  identify_hot_takes reddit_data x_data =
    List.map to_hot_take
      (firstn 5 (List.filter is_hot reddit_data
                 ++ List.filter is_hot x_data)) /\
  ((5 <= length (List.filter is_hot reddit_data))%nat ->
   identify_hot_takes reddit_data x_data =
   identify_hot_takes reddit_data []).
Proof.
  split; [apply hot_takes_filter |].
  intros H. rewrite !hot_takes_filter. cbn [List.filter].
  rewrite app_nil_r. f_equal. rewrite firstn_app.
  replace (5 - length (List.filter is_hot reddit_data))%nat with 0%nat by lia.
  cbn [firstn]. apply app_nil_r.
Qed.

Lemma hot_takes_prefer_reddit_witness :
  (5 <= length (List.filter is_hot
                  (repeat (sample_item "negative" (9 # 10) "high") 5)))%nat /\
  identify_hot_takes (repeat (sample_item "negative" (9 # 10) "high") 5)
                     [sample_item "positive" (99 # 100) "high"] =
  identify_hot_takes (repeat (sample_item "negative" (9 # 10) "high") 5) [].
Proof.
  split; [vm_compute; lia |].
  apply (hot_takes_prefer_reddit
           (repeat (sample_item "negative" (9 # 10) "high") 5)
           [sample_item "positive" (99 # 100) "high"]).
  vm_compute. lia.
Defined.

Lemma prefix_length (n : nat) (s : string) :
  String.length (prefix n s) = Nat.min n (String.length s).
Proof.
  unfold prefix. revert s. induction n as [|n IH]; intros [|c s]; cbn;
    try reflexivity.
  now rewrite IH.
Qed.

Lemma append_length (a b : string) :
  String.length (a ++ b) = (String.length a + String.length b)%nat.
Proof.
  induction a as [|c a IH]; [reflexivity |].
  change (S (String.length (a ++ b)) = S (String.length a + String.length b)).
  now rewrite IH.
Qed.

(** X24.  The preview of a hot take is the first 100 characters of the
    text followed by three dots, also when the text is shorter or absent:
    it has between 3 and 103 characters. *)
Theorem hot_take_preview_is_bounded (it : item) :
  ht_text_preview (to_hot_take it) = prefix 100 (get (text it) "") ++ "..." /\
  String.length (ht_text_preview (to_hot_take it)) =
    (Nat.min 100 (String.length (get (text it) "")) + 3)%nat /\
  (3 <= String.length (ht_text_preview (to_hot_take it)) <= 103)%nat.
Proof.
  unfold to_hot_take. cbn [ht_text_preview].
  rewrite append_length, prefix_length. cbn [String.length].
  split; [reflexivity | split; lia].
Qed.

(** *** Written files *)

Lemma csv_row_width (it : item) : length (csv_row it) = length csv_header.
Proof. reflexivity. Qed.

(** X25.  Every row that [save_csv] writes has as many cells as the
    header, and its text preview holds at most 200 characters. *)
Theorem csv_rows_match_the_header (data : list item) (filename : string)
    (fs : gmap string file) :
  (0 < length data)%nat ->
  exists rows,
    save_csv data filename fs !! filename = Some (Csv (csv_header :: rows)) /\
    List.Forall
      (fun row =>
         length row = length csv_header /\
         exists preview, nth_error row 3 = Some (CStr preview) /\
                         (String.length preview <= 200)%nat)
      rows /\
    nth_error csv_header 3 = Some (CStr "text_preview").
Proof.
  intros Hlen. exists (List.map csv_row data).
  rewrite save_csv_nonempty by assumption. rewrite lookup_insert_eq.
  split; [reflexivity |]. split; [| reflexivity].
  apply List.Forall_forall. intros row Hin.
  apply in_map_iff in Hin as [it [<- _]].
  split; [reflexivity |].
  exists (prefix 200 (get (text it) "")). split; [reflexivity |].
  rewrite prefix_length. lia.
Qed.

Lemma csv_rows_match_the_header_witness :
  (0 < length [sample_item "positive" (9 # 10) "high"])%nat /\
  exists rows,
    save_csv [sample_item "positive" (9 # 10) "high"] "a.csv" ∅ !! "a.csv" =
      Some (Csv (csv_header :: rows)) /\
    length rows = 1%nat.
Proof.
  split; [cbn; lia |].
  destruct (csv_rows_match_the_header
              [sample_item "positive" (9 # 10) "high"] "a.csv" ∅)
    as [rows (H1 & H2 & _)]; [cbn; lia |].
  exists rows. split; [exact H1 |].
  rewrite save_csv_nonempty, lookup_insert_eq in H1 by (cbn; lia).
  injection H1 as <-. reflexivity.
Defined.

(** X26.  The paths that [save_evidence_files] returns are the names the
    report lists, each inside the evidence directory; for a reporter made
    by [__init__] the three paths differ from each other. *)
Theorem returned_paths_are_the_listed_names
    (tie_up : Z -> Z -> bool) (self : reporter)
    (reddit_data x_data : list item) (report_data : report)
    (fs : gmap string file) (stamp date : string) :
  snd (save_evidence_files self reddit_data x_data report_data fs) =
    List.map (path_join (self_evidence_dir self))
      (evidence_files
         (generate_daily_report tie_up self reddit_data x_data)) /\
  List.NoDup (snd (save_evidence_files (init stamp date) reddit_data x_data
                                       report_data fs)).
Proof.
  split; [reflexivity |].
  pose proof (reddit_file_not_x_file stamp date) as Hrx.
  pose proof (reddit_file_not_report_file stamp date) as Hrr.
  pose proof (x_file_not_report_file stamp date) as Hxr.
  cbn [save_evidence_files snd].
  constructor; [cbn; intuition congruence |].
  constructor; [cbn; intuition congruence |].
  constructor; [cbn; tauto | constructor].
Qed.

(** What is found at a path after [save_evidence_files]. *)
Lemma save_evidence_files_lookup (self : reporter)
    (reddit_data x_data : list item) (report_data : report)
    (fs : gmap string file) (path : string) :
  fst (save_evidence_files self reddit_data x_data report_data fs) !! path =
  if decide (report_file self = path) then Some (Json report_data)
  else if decide (x_file self = path /\ x_data <> [])
  then Some (Csv (csv_header :: List.map csv_row x_data))
  else if decide (reddit_file self = path /\ reddit_data <> [])
  then Some (Csv (csv_header :: List.map csv_row reddit_data))
  else fs !! path.
Proof.
  cbn [save_evidence_files fst].
  rewrite lookup_insert. destruct (decide (report_file self = path));
    [reflexivity |].
  assert (Hcsv : forall data f store,
             save_csv data f store !! path =
             if decide (f = path /\ data <> [])
             then Some (Csv (csv_header :: List.map csv_row data))
             else store !! path).
  { intros data f store. destruct data as [|it data].
    - cbn [save_csv]. destruct (decide _) as [[_ H] |]; [| reflexivity].
      now contradiction H.
    - rewrite save_csv_nonempty by (cbn; lia). rewrite lookup_insert.
      destruct (decide (f = path)) as [-> |].
      + destruct (decide _) as [| H]; [reflexivity |].
        contradiction H. split; [reflexivity | discriminate].
      + destruct (decide _) as [[H _] |]; [congruence | reflexivity]. }
  now rewrite !Hcsv.
Qed.

(** X27.  What [save_evidence_files] writes can be read back: the report
    at its path, each non-empty collection as header and rows at its own
    path, and every other path as before. *)
Theorem saved_evidence_can_be_read_back
    (stamp date : string) (reddit_data x_data : list item)
    (report_data : report) (fs : gmap string file) :
  fst (save_evidence_files (init stamp date) reddit_data x_data
                           report_data fs)
    !! report_file (init stamp date) = Some (Json report_data) /\
  ((0 < length reddit_data)%nat ->
   fst (save_evidence_files (init stamp date) reddit_data x_data
                            report_data fs)
     !! reddit_file (init stamp date) =
   Some (Csv (csv_header :: List.map csv_row reddit_data))) /\
  ((0 < length x_data)%nat ->
   fst (save_evidence_files (init stamp date) reddit_data x_data
                            report_data fs)
     !! x_file (init stamp date) =
   Some (Csv (csv_header :: List.map csv_row x_data))) /\
  (forall path,
     path <> report_file (init stamp date) ->
     path <> reddit_file (init stamp date) ->
     path <> x_file (init stamp date) ->
     fst (save_evidence_files (init stamp date) reddit_data x_data
                              report_data fs) !! path = fs !! path).
Proof.
  pose proof (reddit_file_not_x_file stamp date) as Hrx.
  pose proof (reddit_file_not_report_file stamp date) as Hrr.
  pose proof (x_file_not_report_file stamp date) as Hxr.
  split; [| split; [| split]].
  - rewrite save_evidence_files_lookup. now rewrite decide_True.
  - intros Hlen. rewrite save_evidence_files_lookup.
    rewrite decide_False by congruence.
    rewrite decide_False by (intros [H _]; congruence).
    rewrite decide_True; [reflexivity |].
    split; [reflexivity |]. destruct reddit_data; [cbn in Hlen; lia |
                                                  discriminate].
  - intros Hlen. rewrite save_evidence_files_lookup.
    rewrite decide_False by congruence.
    rewrite decide_True; [reflexivity |].
    split; [reflexivity |]. destruct x_data; [cbn in Hlen; lia |
                                             discriminate].
  - intros path H1 H2 H3. rewrite save_evidence_files_lookup.
    rewrite decide_False by congruence.
    rewrite decide_False by (intros [H _]; congruence).
    rewrite decide_False by (intros [H _]; congruence).
    reflexivity.
Qed.

Lemma saved_evidence_can_be_read_back_witness :
  (0 < length [sample_item "positive" (9 # 10) "high"])%nat /\
  fst (save_evidence_files (init "20240501_080000" "2024-05-01")
         [sample_item "positive" (9 # 10) "high"] []
         (generate_daily_report half_even
            (init "20240501_080000" "2024-05-01")
            [sample_item "positive" (9 # 10) "high"] []) ∅)
    !! reddit_file (init "20240501_080000" "2024-05-01") =
  Some (Csv [csv_header; csv_row (sample_item "positive" (9 # 10) "high")]).
Proof.
  split; [cbn; lia |].
  apply (saved_evidence_can_be_read_back "20240501_080000" "2024-05-01"
           [sample_item "positive" (9 # 10) "high"] []
           (generate_daily_report half_even
              (init "20240501_080000" "2024-05-01")
              [sample_item "positive" (9 # 10) "high"] []) ∅).
  cbn. lia.
Defined.

(** X28.  Saving the same evidence a second time changes nothing. *)
Theorem saving_evidence_is_idempotent
    (self : reporter) (reddit_data x_data : list item)
    (report_data : report) (fs : gmap string file) :
  fst (save_evidence_files self reddit_data x_data report_data
         (fst (save_evidence_files self reddit_data x_data report_data fs))) =
  fst (save_evidence_files self reddit_data x_data report_data fs).
Proof.
  apply map_eq. intros path.
  rewrite !save_evidence_files_lookup.
  repeat destruct (decide _); reflexivity.
Qed.

End ReportFacts.
